(** * Course-management service: token gate, handlers and store

    A shallow embedding of [config.py], [auth.py], [db.py] and [app.py].

    - Python exceptions are values of [exn]; a call that may raise returns
      a [result].
    - [datetime.utcnow()] is an input: every call site receives the reading
      it got, in whole seconds since the epoch (the resolution of the
      [exp]/[iat] claims that python-jose writes with [timegm]).
    - python-jose and passlib are interfaces ([JWS], [Passlib]); the
      development is parametric in them and instantiates them with small
      executable stand-ins when it evaluates.
    - The PostgreSQL connection is explicit state: the tables as committed,
      the tables as seen by the open transaction, and the sequences. *)

From Stdlib Require Import ZArith Lia Ascii String List Bool.
From stdpp Require Import base strings gmap list pretty.

Local Open Scope string_scope.
Local Open Scope Z_scope.

(** ** Exceptions and results *)

Inductive pg_error :=
  | UniqueViolation (constraint : string)
  | ForeignKeyViolation (constraint : string).

Inductive exn :=
  | HTTPException (status_code : Z) (detail : string)
  | JWTError
  | ValueError (msg : string)
  | KeyError (key : string)
  | TypeError
  | UnknownHashError
  | ProgrammingError (msg : string)
  | DatabaseError (e : pg_error).

Inductive result (A : Type) :=
  | Ok (a : A)
  | Raise (e : exn).
Arguments Ok {A} a.
Arguments Raise {A} e.

(** ** Python string builtins used by the handlers

    A [string] is a sequence of code points below 256 (header values reach
    the handlers decoded as Latin-1). *)

Module Py.

(** [str.isspace] on one code point. *)
Definition isspace (c : ascii) : bool :=
  let n := N_of_ascii c in
  ((9 <=? n) && (n <=? 13) || (28 <=? n) && (n <=? 32) || (n =? 133) || (n =? 160))%N.

Definition is_empty (s : string) : bool :=
  match s with EmptyString => true | String _ _ => false end.

(** [s.split()]: split on runs of whitespace, no empty words. *)
Fixpoint split_from (cur : string) (s : string) : list string :=
  match s with
  | EmptyString => if is_empty cur then [] else [cur]
  | String c r =>
      if isspace c
      then (if is_empty cur then split_from EmptyString r
            else cur :: split_from EmptyString r)
      else split_from (cur +:+ String c EmptyString) r
  end.

Definition split (s : string) : list string := split_from EmptyString s.

(** [s.lower()] *)
Definition lower_char (c : ascii) : ascii :=
  let n := N_of_ascii c in
  if ((65 <=? n) && (n <=? 90)
      || (192 <=? n) && (n <=? 222) && negb (n =? 215))%N
  then ascii_of_N (n + 32) else c.

Fixpoint lower (s : string) : string :=
  match s with
  | EmptyString => EmptyString
  | String c r => String (lower_char c) (lower r)
  end.

(** [c in s] for a one-character [c]. *)
Fixpoint contains (c : ascii) (s : string) : bool :=
  match s with
  | EmptyString => false
  | String d r => if Ascii.eqb c d then true else contains c r
  end.

(** [len(s)] *)
Definition len (s : string) : Z := Z.of_nat (String.length s).

(** [str(n)] for an [int]. *)
Definition str (n : Z) : string := pretty n.

(** [int(s)] for a [str]: surrounding whitespace is dropped, then an
    optional sign and decimal digits, single underscores allowed between
    digits.  [None] stands for [ValueError]. *)
Fixpoint lstrip (s : string) : string :=
  match s with
  | EmptyString => EmptyString
  | String c r => if isspace c then lstrip r else s
  end.

Fixpoint rstrip (s : string) : string :=
  match s with
  | EmptyString => EmptyString
  | String c r =>
      let r' := rstrip r in
      if isspace c && is_empty r' then EmptyString else String c r'
  end.

Definition digit (c : ascii) : option Z :=
  let n := N_of_ascii c in
  if ((48 <=? n) && (n <=? 57))%N then Some (Z.of_N (n - 48)) else None.

Fixpoint digits (acc : Z) (after_digit : bool) (s : string) : option Z :=
  match s with
  | EmptyString => if after_digit then Some acc else None
  | String c r =>
      match digit c with
      | Some d => digits (10 * acc + d) true r
      | None =>
          if Ascii.eqb c "_" && after_digit then digits acc false r else None
      end
  end.

Definition int (s : string) : option Z :=
  match rstrip (lstrip s) with
  | String "-" r => Z.opp <$> digits 0 false r
  | String "+" r => digits 0 false r
  | r => digits 0 false r
  end.

End Py.

(** ** JSON values carried by a token payload *)

Inductive jval :=
  | JNull
  | JBool (b : bool)
  | JNum (n : Z)
  | JStr (s : string).

Global Instance jval_eq_dec : EqDecision jval.
Proof. solve_decision. Defined.

(** A payload is a Python [dict] with string keys. *)
Abbreviation claims := (gmap string jval).

(** Truthiness of [Optional[Dict]]: [None] and the empty dict are falsy. *)
Definition dict_truthy (p : option claims) : bool :=
  match p with
  | None => false
  | Some d => negb (bool_decide (d = ∅))
  end.

(** ** config.py *)

Record Config := {
  mode : string;
  is_production : bool;
  database_url : string;
  jwt_secret : string;
  jwt_algorithm : string;
  jwt_expiration_hours : Z
}.

(** [Config.__init__]; [getenv] is the process environment.  The CORS,
    logging and application-name fields play no part below and are left
    out. *)
Definition Config_init (getenv : string → option string) (m : string)
  : result Config :=
  let prod := bool_decide (m = "prod") in
  let url :=
    if prod then
      match getenv "POSTGRES_URL" with
      | Some u => if Py.is_empty u then Raise (ValueError "POSTGRES_URL environment variable is required in production mode") else Ok u
      | None => Raise (ValueError "POSTGRES_URL environment variable is required in production mode")
      end
    else Ok (default "postgresql://localhost/course_management_test"
               (getenv "TEST_DATABASE_URL")) in
  match url with
  | Raise e => Raise e
  | Ok u =>
      Ok {| mode := m;
            is_production := prod;
            database_url := u;
            jwt_secret := default "dev-secret-key-change-in-production"
                            (getenv "JWT_SECRET");
            jwt_algorithm := "HS256";
            jwt_expiration_hours := 24 |}
  end.

(** The configuration of a process started without environment
    variables, in test mode. *)
Definition test_config : Config :=
  {| mode := "test";
     is_production := false;
     database_url := "postgresql://localhost/course_management_test";
     jwt_secret := "dev-secret-key-change-in-production";
     jwt_algorithm := "HS256";
     jwt_expiration_hours := 24 |}.

(** ** python-jose

    [jws.sign] and [jws.verify] (compact serialisation, base64url, JSON and
    the HMAC) are taken as an interface.  The one law is that a payload
    signed under HS256 verifies under the same key and yields the same
    payload. *)

Class JWS := {
  jws_sign : claims → string → string → result string;
  jws_verify : string → string → list string → result claims;
  jws_verify_sign : ∀ (c : claims) (key : string),
    ∃ token, jws_sign c key "HS256" = Ok token
             ∧ jws_verify token key ["HS256"] = Ok c
}.

Module Jose.

(** [int(claims[k])] as the claim validators call it; [None] is the
    [ValueError]/[TypeError] case. *)
Definition int_of (v : jval) : option Z :=
  match v with
  | JNum n => Some n
  | JBool b => Some (if b then 1 else 0)
  | JStr s => Py.int s
  | JNull => None
  end.

Definition is_str (v : jval) : bool :=
  match v with JStr _ => true | _ => false end.

(** [_validate_iat]: present means convertible to an integer. *)
Definition validate_iat (c : claims) : bool :=
  match c !! "iat" with
  | None => true
  | Some v => bool_decide (is_Some (int_of v))
  end.

(** [_validate_nbf]: rejected while [nbf > now]. *)
Definition validate_nbf (now : Z) (c : claims) : bool :=
  match c !! "nbf" with
  | None => true
  | Some v => match int_of v with
              | Some nbf => negb (now <? nbf)
              | None => false
              end
  end.

(** [_validate_exp]: rejected once [exp < now]. *)
Definition validate_exp (now : Z) (c : claims) : bool :=
  match c !! "exp" with
  | None => true
  | Some v => match int_of v with
              | Some exp => negb (exp <? now)
              | None => false
              end
  end.

(** [_validate_aud] with [audience=None]: a token that names an audience
    is rejected. *)
Definition validate_aud (c : claims) : bool :=
  bool_decide (c !! "aud" = None).

(** [_validate_sub], [_validate_jti]: when present, a string. *)
Definition validate_str (k : string) (c : claims) : bool :=
  match c !! k with
  | None => true
  | Some v => is_str v
  end.

(** [_validate_at_hash] with [access_token=None]. *)
Definition validate_at_hash (c : claims) : bool :=
  bool_decide (c !! "at_hash" = None).

Definition validate_claims (now : Z) (c : claims) : bool :=
  validate_iat c && validate_nbf now c && validate_exp now c
  && validate_aud c && validate_str "sub" c && validate_str "jti" c
  && validate_at_hash c.

Section with_jws.
Context `{!JWS}.

(** [jwt.encode(claims, key, algorithm)] *)
Definition encode (c : claims) (key alg : string) : result string :=
  jws_sign c key alg.

(** [jwt.decode(token, key, algorithms)] with the default options; [now]
    is the clock reading the validators take (each reads the clock for
    itself; one reading stands for them all). *)
Definition decode (now : Z) (token key : string) (algs : list string)
  : result claims :=
  match jws_verify token key algs with
  | Raise _ => Raise JWTError
  | Ok c => if validate_claims now c then Ok c else Raise JWTError
  end.

End with_jws.
End Jose.

(** ** passlib

    [CryptContext(schemes=["bcrypt"])]: [hash] draws a salt, [verify]
    answers or raises (an unidentifiable hash string raises). *)

Class Passlib := {
  ctx_hash : string → string → result string;
  ctx_verify : string → string → result bool
}.

(** ** auth.py *)

Module AuthManager.
Section with_libs.
Context `{!JWS, !Passlib}.

(** [hash_password]: the exception is logged and re-raised. *)
Definition hash_password (salt password : string) : result string :=
  ctx_hash salt password.

(** [verify_password]: [except Exception: return False]. *)
Definition verify_password (plain_password hashed_password : string)
  : result bool :=
  match ctx_verify plain_password hashed_password with
  | Ok r => Ok r
  | Raise _ => Ok false
  end.

(** The dict handed to [jwt.encode]: [data.copy()] updated with [exp],
    [type] and [iat].  [t_expire] is the reading of the first
    [datetime.utcnow()] (line 63), [t_iat] that of the second (line 68). *)
Definition to_encode (config : Config) (t_expire t_iat : Z)
    (data : claims) (user_type : string) : claims :=
  let expire := t_expire + jwt_expiration_hours config * 3600 in
  <["iat" := JNum t_iat]>
    (<["type" := JStr user_type]>
       (<["exp" := JNum expire]> data)).

Definition create_access_token (config : Config) (t_expire t_iat : Z)
    (data : claims) (user_type : string) : result string :=
  Jose.encode (to_encode config t_expire t_iat data user_type)
    (jwt_secret config) (jwt_algorithm config).

(** [verify_token]: any exception gives [None]. *)
Definition verify_token (config : Config) (now : Z) (token : string)
  : option claims :=
  match Jose.decode now token (jwt_secret config) [jwt_algorithm config] with
  | Ok payload => Some payload
  | Raise _ => None
  end.

Definition validate_email (email : string) : bool :=
  if Py.is_empty email || negb (Py.contains "@" email)
     || negb (Py.contains "." email)
  then false else true.

Definition validate_password (password : string) : bool * string :=
  if Py.is_empty password then (false, "Password is required")
  else if Py.len password <? 6
       then (false, "Password must be at least 6 characters long")
       else (true, "").

End with_libs.
End AuthManager.

(** ** db.py: the store

    The four tables of [initialize_schema] with the constraints it
    declares: the [SERIAL] keys, [UNIQUE] on [students.email],
    [admins.username] and [enrollments(student_id, course_id)], and the
    foreign keys, [ON DELETE CASCADE] for both columns of [enrollments].
    Timestamp columns and [ORDER BY] are not represented: a result set is a
    list whose order carries no meaning.  Column length limits, the 32-bit
    range of [INTEGER] and loss of the connection are outside the model. *)

Module Db.

Record student := {
  s_id : Z;
  s_email : string;
  s_password_hash : string;
  s_name : option string
}.

Record admin := {
  a_id : Z;
  a_username : string;
  a_password_hash : string
}.

Record course := {
  c_id : Z;
  c_title : string;
  c_description : string;
  c_created_by : Z
}.

Record enrollment := {
  e_id : Z;
  e_student_id : Z;
  e_course_id : Z
}.

Record Tables := {
  students : list student;
  admins : list admin;
  courses : list course;
  enrollments : list enrollment
}.

(** The [SERIAL] sequences.  [nextval] is not undone by a rollback, so
    they live beside the transactional state. *)
Record Sequences := {
  students_id_seq : Z;
  admins_id_seq : Z;
  courses_id_seq : Z;
  enrollments_id_seq : Z
}.

(** [self.connection] with [autocommit = False]: [working] is what the
    open transaction sees, [committed] what a rollback returns to. *)
Record Connection := {
  committed : Tables;
  working : Tables;
  seqs : Sequences
}.

(** A row of a [RealDictCursor]: a dict from column name to value. *)
Abbreviation row := (gmap string jval).

Definition opt_str (o : option string) : jval :=
  match o with Some s => JStr s | None => JNull end.

(** [SELECT * FROM students] *)
Definition student_star (s : student) : row :=
  <["id" := JNum (s_id s)]>
    (<["email" := JStr (s_email s)]>
       (<["password_hash" := JStr (s_password_hash s)]>
          (<["name" := opt_str (s_name s)]> ∅))).

(** The columns [id, email, name] *)
Definition student_public (s : student) : row :=
  <["id" := JNum (s_id s)]>
    (<["email" := JStr (s_email s)]>
       (<["name" := opt_str (s_name s)]> ∅)).

Definition admin_star (a : admin) : row :=
  <["id" := JNum (a_id a)]>
    (<["username" := JStr (a_username a)]>
       (<["password_hash" := JStr (a_password_hash a)]> ∅)).

(** [SELECT * FROM courses] *)
Definition course_star (c : course) : row :=
  <["id" := JNum (c_id c)]>
    (<["title" := JStr (c_title c)]>
       (<["description" := JStr (c_description c)]>
          (<["created_by" := JNum (c_created_by c)]> ∅))).

(** The columns [id, title, description] *)
Definition course_public (c : course) : row :=
  <["id" := JNum (c_id c)]>
    (<["title" := JStr (c_title c)]>
       (<["description" := JStr (c_description c)]> ∅)).

Definition enrollment_row (e : enrollment) : row :=
  <["id" := JNum (e_id e)]>
    (<["student_id" := JNum (e_student_id e)]>
       (<["course_id" := JNum (e_course_id e)]> ∅)).

(** The statements the program sends.  [DeleteStudent] is sent by no
    method of [Database]; it is here because the schema says what it
    does to [enrollments]. *)
Inductive sql :=
  | InsertStudent (email password_hash : string) (name : option string)
  | SelectStudentByEmail (email : string)
  | SelectAllStudents
  | DeleteStudent (student_id : Z)
  | InsertAdmin (username password_hash : string)
  | SelectAdminByUsername (username : string)
  | InsertCourse (title description : string) (created_by : Z)
  | UpdateCourse (title description : string) (course_id : Z)
  | DeleteCourse (course_id : Z)
  | SelectAllCourses
  | SelectCourseById (course_id : Z)
  | InsertEnrollment (student_id course_id : Z)
  | DeleteEnrollment (student_id course_id : Z)
  | SelectStudentCourses (student_id : Z)
  | SelectCourseStudents (course_id : Z).

(** Whether the statement produces a result set ([SELECT], [RETURNING]). *)
Definition returns_rows (q : sql) : bool :=
  match q with
  | DeleteStudent _ | InsertAdmin _ _ | DeleteCourse _
  | DeleteEnrollment _ _ => false
  | _ => true
  end.

Definition has_student (t : Tables) (sid : Z) : bool :=
  existsb (λ s, s_id s =? sid) (students t).
Definition has_admin (t : Tables) (aid : Z) : bool :=
  existsb (λ a, a_id a =? aid) (admins t).
Definition has_course (t : Tables) (cid : Z) : bool :=
  existsb (λ c, c_id c =? cid) (courses t).
Definition is_pair (sid cid : Z) (e : enrollment) : bool :=
  (e_student_id e =? sid) && (e_course_id e =? cid).

Definition set_course (ti de : string) (cid : Z) (c : course) : course :=
  if c_id c =? cid
  then {| c_id := c_id c; c_title := ti; c_description := de;
          c_created_by := c_created_by c |}
  else c.

(** [cursor.execute(query, params)] inside the open transaction: the new
    sequences, and either the error the server reports or the new tables
    and the result set. *)
Definition execute (q : sql) (sq : Sequences) (t : Tables)
  : Sequences * result (Tables * list row) :=
  match q with
  | InsertStudent em ph nm =>
      let s := {| s_id := students_id_seq sq; s_email := em;
                  s_password_hash := ph; s_name := nm |} in
      let sq' := {| students_id_seq := students_id_seq sq + 1;
                    admins_id_seq := admins_id_seq sq;
                    courses_id_seq := courses_id_seq sq;
                    enrollments_id_seq := enrollments_id_seq sq |} in
      if existsb (λ x, String.eqb (s_email x) em) (students t)
      then (sq', Raise (DatabaseError (UniqueViolation "students_email_key")))
      else (sq', Ok ({| students := students t ++ [s]; admins := admins t;
                        courses := courses t;
                        enrollments := enrollments t |},
                     [student_public s]))
  | SelectStudentByEmail em =>
      (sq, Ok (t, List.map student_star
                    (List.filter (λ x, String.eqb (s_email x) em)
                       (students t))))
  | SelectAllStudents =>
      (sq, Ok (t, List.map student_public (students t)))
  | DeleteStudent sid =>
      (sq, Ok ({| students :=
                    List.filter (λ x, negb (s_id x =? sid)) (students t);
                  admins := admins t;
                  courses := courses t;
                  enrollments :=
                    List.filter (λ e, negb (e_student_id e =? sid))
                      (enrollments t) |}, []))
  | InsertAdmin un ph =>
      let a := {| a_id := admins_id_seq sq; a_username := un;
                  a_password_hash := ph |} in
      let sq' := {| students_id_seq := students_id_seq sq;
                    admins_id_seq := admins_id_seq sq + 1;
                    courses_id_seq := courses_id_seq sq;
                    enrollments_id_seq := enrollments_id_seq sq |} in
      if existsb (λ x, String.eqb (a_username x) un) (admins t)
      then (sq', Ok (t, []))
      else (sq', Ok ({| students := students t; admins := admins t ++ [a];
                        courses := courses t;
                        enrollments := enrollments t |}, []))
  | SelectAdminByUsername un =>
      (sq, Ok (t, List.map admin_star
                    (List.filter (λ x, String.eqb (a_username x) un)
                       (admins t))))
  | InsertCourse ti de cb =>
      let c := {| c_id := courses_id_seq sq; c_title := ti;
                  c_description := de; c_created_by := cb |} in
      let sq' := {| students_id_seq := students_id_seq sq;
                    admins_id_seq := admins_id_seq sq;
                    courses_id_seq := courses_id_seq sq + 1;
                    enrollments_id_seq := enrollments_id_seq sq |} in
      if has_admin t cb
      then (sq', Ok ({| students := students t; admins := admins t;
                        courses := courses t ++ [c];
                        enrollments := enrollments t |},
                     [course_public c]))
      else (sq', Raise (DatabaseError
                          (ForeignKeyViolation "courses_created_by_fkey")))
  | UpdateCourse ti de cid =>
      let cs := List.map (set_course ti de cid) (courses t) in
      (sq, Ok ({| students := students t; admins := admins t;
                  courses := cs; enrollments := enrollments t |},
               List.map course_public
                 (List.filter (λ c, c_id c =? cid) cs)))
  | DeleteCourse cid =>
      (sq, Ok ({| students := students t; admins := admins t;
                  courses :=
                    List.filter (λ c, negb (c_id c =? cid)) (courses t);
                  enrollments :=
                    List.filter (λ e, negb (e_course_id e =? cid))
                      (enrollments t) |}, []))
  | SelectAllCourses =>
      (sq, Ok (t, List.map course_public (courses t)))
  | SelectCourseById cid =>
      (sq, Ok (t, List.map course_star
                    (List.filter (λ c, c_id c =? cid) (courses t))))
  | InsertEnrollment sid cid =>
      let e := {| e_id := enrollments_id_seq sq; e_student_id := sid;
                  e_course_id := cid |} in
      let sq' := {| students_id_seq := students_id_seq sq;
                    admins_id_seq := admins_id_seq sq;
                    courses_id_seq := courses_id_seq sq;
                    enrollments_id_seq := enrollments_id_seq sq + 1 |} in
      if existsb (is_pair sid cid) (enrollments t)
      then (sq', Ok (t, []))
      else if negb (has_student t sid)
      then (sq', Raise (DatabaseError
                          (ForeignKeyViolation "enrollments_student_id_fkey")))
      else if negb (has_course t cid)
      then (sq', Raise (DatabaseError
                          (ForeignKeyViolation "enrollments_course_id_fkey")))
      else (sq', Ok ({| students := students t; admins := admins t;
                        courses := courses t;
                        enrollments := enrollments t ++ [e] |},
                     [enrollment_row e]))
  | DeleteEnrollment sid cid =>
      (sq, Ok ({| students := students t; admins := admins t;
                  courses := courses t;
                  enrollments :=
                    List.filter (λ e, negb (is_pair sid cid e))
                      (enrollments t) |}, []))
  | SelectStudentCourses sid =>
      (sq, Ok (t, flat_map
                    (λ e, List.map course_public
                            (List.filter (λ c, c_id c =? e_course_id e)
                               (courses t)))
                    (List.filter (λ e, e_student_id e =? sid)
                       (enrollments t))))
  | SelectCourseStudents cid =>
      (sq, Ok (t, flat_map
                    (λ e, List.map student_public
                            (List.filter (λ s, s_id s =? e_student_id e)
                               (students t)))
                    (List.filter (λ e, e_course_id e =? cid)
                       (enrollments t))))
  end.

(** *** The [Database] class

    A method is a function from the connection to its outcome and the
    connection it leaves behind: Python mutates [self.connection] whether
    the method returns or raises. *)

Definition M (A : Type) : Type := Connection → result A * Connection.

Definition ret {A} (a : A) : M A := λ conn, (Ok a, conn).
Definition raise {A} (e : exn) : M A := λ conn, (Raise e, conn).
Definition bind {A B} (m : M A) (k : A → M B) : M B :=
  λ conn, match m conn with
          | (Ok a, conn') => k a conn'
          | (Raise e, conn') => (Raise e, conn')
          end.
Definition lift {A} (r : result A) : M A := λ conn, (r, conn).

Global Instance M_ret : MRet M := @ret.
Global Instance M_bind : MBind M := λ A B k m, bind m k.

(** [execute_query(query, params, fetch)].  On an exception the
    transaction is rolled back and the exception re-raised; a result set
    is fetched without committing; only [fetch=False] commits.  Fetching
    from a statement that has no result set raises inside the [try]. *)
Definition execute_query (query : sql) (fetch : bool)
  : M (option (list row)) :=
  λ conn,
    match execute query (seqs conn) (working conn) with
    | (sq, Raise e) =>
        (Raise e, {| committed := committed conn;
                     working := committed conn; seqs := sq |})
    | (sq, Ok (t, rows)) =>
        if fetch then
          if returns_rows query
          then (Ok (Some rows), {| committed := committed conn;
                                   working := t; seqs := sq |})
          else (Raise (ProgrammingError "no results to fetch"),
                {| committed := committed conn;
                   working := committed conn; seqs := sq |})
        else (Ok None, {| committed := t; working := t; seqs := sq |})
    end.

(** [result[0] if result else None] *)
Definition first_row (r : option (list row)) : option row :=
  match r with
  | Some (x :: _) => Some x
  | _ => None
  end.

(** [result or []] *)
Definition rows_or_empty (r : option (list row)) : list row :=
  match r with
  | Some l => l
  | None => []
  end.

Definition seed_admin (username password_hash : string) : M unit :=
  λ conn, match execute_query (InsertAdmin username password_hash) false conn
          with
          | (_, conn') => (Ok tt, conn')
          end.

Definition create_student (email password_hash : string)
    (name : option string) : M (option row) :=
  result ← execute_query (InsertStudent email password_hash name) true;
  ret (first_row result).

Definition get_student_by_email (email : string) : M (option row) :=
  result ← execute_query (SelectStudentByEmail email) true;
  ret (first_row result).

Definition get_all_students : M (list row) :=
  result ← execute_query SelectAllStudents true;
  ret (rows_or_empty result).

Definition create_course (title description : string) (created_by : Z)
  : M (option row) :=
  result ← execute_query (InsertCourse title description created_by) true;
  ret (first_row result).

Definition update_course (course_id : Z) (title description : string)
  : M (option row) :=
  result ← execute_query (UpdateCourse title description course_id) true;
  ret (first_row result).

Definition delete_course (course_id : Z) : M bool :=
  _ ← execute_query (DeleteCourse course_id) false;
  ret true.

Definition get_all_courses : M (list row) :=
  result ← execute_query SelectAllCourses true;
  ret (rows_or_empty result).

Definition get_course_by_id (course_id : Z) : M (option row) :=
  result ← execute_query (SelectCourseById course_id) true;
  ret (first_row result).

Definition enroll_student (student_id course_id : Z) : M (option row) :=
  result ← execute_query (InsertEnrollment student_id course_id) true;
  ret (first_row result).

Definition unenroll_student (student_id course_id : Z) : M bool :=
  _ ← execute_query (DeleteEnrollment student_id course_id) false;
  ret true.

Definition get_student_courses (student_id : Z) : M (list row) :=
  result ← execute_query (SelectStudentCourses student_id) true;
  ret (rows_or_empty result).

Definition get_course_students (course_id : Z) : M (list row) :=
  result ← execute_query (SelectCourseStudents course_id) true;
  ret (rows_or_empty result).

Definition get_admin_by_username (username : string) : M (option row) :=
  result ← execute_query (SelectAdminByUsername username) true;
  ret (first_row result).

(** *** What the schema promises about a table set *)

(** Every enrollment row references a student row and a course row. *)
Definition fk_ok (t : Tables) : Prop :=
  ∀ e, In e (enrollments t) →
       has_student t (e_student_id e) = true
       ∧ has_course t (e_course_id e) = true.

(** No two student rows share an email. *)
Definition unique_emails (t : Tables) : Prop :=
  List.NoDup (List.map s_email (students t)).

(** The number of enrollment rows for a pair. *)
Definition pair_count (t : Tables) (sid cid : Z) : nat :=
  length (List.filter (is_pair sid cid) (enrollments t)).

(** The number of student rows with an email. *)
Definition email_count (t : Tables) (em : string) : nat :=
  length (List.filter (λ x, String.eqb (s_email x) em) (students t)).

(** The tables after [DELETE FROM courses WHERE id = cid]. *)
Definition without_course (cid : Z) (t : Tables) : Tables :=
  {| students := students t; admins := admins t;
     courses := List.filter (λ c, negb (c_id c =? cid)) (courses t);
     enrollments :=
       List.filter (λ e, negb (e_course_id e =? cid)) (enrollments t) |}.

(** The tables after [DELETE FROM students WHERE id = sid]. *)
Definition without_student (sid : Z) (t : Tables) : Tables :=
  {| students := List.filter (λ x, negb (s_id x =? sid)) (students t);
     admins := admins t; courses := courses t;
     enrollments :=
       List.filter (λ e, negb (e_student_id e =? sid)) (enrollments t) |}.

(** The connection after an [INSERT INTO enrollments] that met a row
    for the same pair: only the sequence has moved. *)
Definition after_conflict (conn : Connection) : Connection :=
  {| committed := committed conn; working := working conn;
     seqs := {| students_id_seq := students_id_seq (seqs conn);
                admins_id_seq := admins_id_seq (seqs conn);
                courses_id_seq := courses_id_seq (seqs conn);
                enrollments_id_seq := enrollments_id_seq (seqs conn) + 1 |} |}.

(** No two enrollment rows share a pair. *)
Definition unique_pairs (t : Tables) : Prop :=
  ∀ sid cid, (pair_count t sid cid ≤ 1)%nat.

(** The primary keys of a table set under the sequences: in each table
    the ids are distinct and all below the next value of the sequence. *)
Definition keys_ok (sq : Sequences) (t : Tables) : Prop :=
  (List.NoDup (List.map s_id (students t))
   ∧ ∀ x, In x (students t) → s_id x < students_id_seq sq)
  ∧ (List.NoDup (List.map a_id (admins t))
     ∧ ∀ x, In x (admins t) → a_id x < admins_id_seq sq)
  ∧ (List.NoDup (List.map c_id (courses t))
     ∧ ∀ x, In x (courses t) → c_id x < courses_id_seq sq)
  ∧ (List.NoDup (List.map e_id (enrollments t))
     ∧ ∀ x, In x (enrollments t) → e_id x < enrollments_id_seq sq).

(** The row [SELECT * FROM students WHERE email = %s] puts first, and
    the same for admins. *)
Definition stored_student (conn : Connection) (em : string)
  : option student :=
  List.find (λ x, String.eqb (s_email x) em) (students (working conn)).

Definition stored_admin (conn : Connection) (un : string) : option admin :=
  List.find (λ x, String.eqb (a_username x) un) (admins (working conn)).

(** The student row an [INSERT] makes on this connection. *)
Definition next_student (conn : Connection) (em ph : string)
    (nm : option string) : student :=
  {| s_id := students_id_seq (seqs conn); s_email := em;
     s_password_hash := ph; s_name := nm |}.



(** No enrollment row of the open transaction names the course. *)
Definition pair_free (conn : Connection) (cid : Z) : Prop :=
  ∀ e, In e (enrollments (working conn)) → e_course_id e ≠ cid.

(** No sequence has gone back. *)
Definition seq_le (sq sq' : Sequences) : Prop :=
  students_id_seq sq ≤ students_id_seq sq'
  ∧ admins_id_seq sq ≤ admins_id_seq sq'
  ∧ courses_id_seq sq ≤ courses_id_seq sq'
  ∧ enrollments_id_seq sq ≤ enrollments_id_seq sq'.

(** The state the schema leaves on a database that holds nothing. *)
Definition empty_tables : Tables :=
  {| students := []; admins := []; courses := []; enrollments := [] |}.

Definition fresh : Connection :=
  {| committed := empty_tables; working := empty_tables;
     seqs := {| students_id_seq := 1; admins_id_seq := 1;
                courses_id_seq := 1; enrollments_id_seq := 1 |} |}.

End Db.

Global Instance result_ret : MRet result := @Ok.
Global Instance result_bind : MBind result :=
  λ A B k r, match r with Ok a => k a | Raise e => Raise e end.

(** ** app.py *)

Module App.

(** What a handler returns: Python dicts and lists that FastAPI turns
    into a JSON body. *)
#[local] Set Warnings "-register-all".
Inductive json :=
  | JAtom (v : jval)
  | JRow (r : Db.row)
  | JRows (l : list Db.row)
  | JObject (fields : list (string * json)).

(** The request models; pydantic has validated them before the handler
    runs. *)
Record StudentSignup := {
  signup_email : string;
  signup_password : string;
  signup_name : option string
}.
Record StudentLogin := { login_email : string; login_password : string }.
Record AdminLogin := { login_username : string; admin_password : string }.
Record CourseCreate := { course_title : string; course_description : string }.
Record CourseUpdate := { update_title : string; update_description : string }.
Record EnrollmentCreate := { enrollment_student_id : Z; enrollment_course_id : Z }.

(** [d[k]] on a value that may be [None]. *)
Definition getitem (d : option Db.row) (k : string) : result jval :=
  match d with
  | None => Raise TypeError
  | Some r => match r !! k with
              | Some v => Ok v
              | None => Raise (KeyError k)
              end
  end.

(** [str(v)] *)
Definition str_of (v : jval) : string :=
  match v with
  | JNull => "None"
  | JBool true => "True"
  | JBool false => "False"
  | JNum n => Py.str n
  | JStr s => s
  end.

(** [int(v)] *)
Definition int_of (v : jval) : result Z :=
  match v with
  | JNull => Raise TypeError
  | _ => match Jose.int_of v with
         | Some n => Ok n
         | None => Raise (ValueError "invalid literal for int()")
         end
  end.

(** [current_user.get("type") == t] *)
Definition type_is (current_user : claims) (t : string) : bool :=
  bool_decide (current_user !! "type" = Some (JStr t)).

(** The tail of every handler:
    [except HTTPException: raise] then
    [except Exception: raise HTTPException(status, detail)]. *)
Definition reraise_as {A} (status : Z) (detail : string) (m : Db.M A)
  : Db.M A :=
  λ conn, match m conn with
          | (Raise (HTTPException s d), conn') =>
              (Raise (HTTPException s d), conn')
          | (Raise _, conn') => (Raise (HTTPException status detail), conn')
          | (Ok a, conn') => (Ok a, conn')
          end.

Definition http {A} (status : Z) (detail : string) : Db.M A :=
  Db.raise (HTTPException status detail).

Section with_services.
Context `{!JWS, !Passlib}.
(** The module-level [config = Config(mode=MODE)] *)
Variable config : Config.

(** [get_current_user]; [now] is the clock reading [jwt.decode] takes.
    The body raises nothing but [HTTPException] ([verify_token] catches
    everything), so the closing [except Exception] is never entered. *)
Definition get_current_user (now : Z) (authorization : option string)
  : result claims :=
  match authorization with
  | None => Raise (HTTPException 401 "Authorization header required")
  | Some a =>
      if Py.is_empty a
      then Raise (HTTPException 401 "Authorization header required")
      else
        let parts := Py.split a in
        if bool_decide (length parts ≠ 2%nat)
           || negb (String.eqb (Py.lower (nth 0 parts "")) "bearer")
        then Raise (HTTPException 401 "Invalid authorization header format")
        else
          let token := nth 1 parts "" in
          let payload := AuthManager.verify_token config now token in
          match payload with
          | Some p =>
              if dict_truthy payload then Ok p
              else Raise (HTTPException 401 "Invalid or expired token")
          | None => Raise (HTTPException 401 "Invalid or expired token")
          end
  end.

Definition student_signup (salt : string) (t_expire t_iat : Z)
    (student : StudentSignup) : Db.M json :=
  reraise_as 500 "Signup failed" (
    if negb (AuthManager.validate_email (signup_email student))
    then http 400 "Invalid email format"
    else
      let '(is_valid, error_msg) :=
        AuthManager.validate_password (signup_password student) in
      if negb is_valid then http 400 error_msg
      else
        existing_student ← Db.get_student_by_email (signup_email student);
        if dict_truthy existing_student
        then http 400 "Email already registered"
        else
          password_hash ← Db.lift (AuthManager.hash_password salt
                                     (signup_password student));
          new_student ← Db.create_student (signup_email student)
                          password_hash (signup_name student);
          id ← Db.lift (getitem new_student "id");
          email ← Db.lift (getitem new_student "email");
          token ← Db.lift (AuthManager.create_access_token config
                             t_expire t_iat
                             (<["sub" := JStr (str_of id)]>
                                (<["email" := email]> ∅))
                             "student");
          name ← Db.lift (getitem new_student "name");
          Db.ret (JObject
                    [("message", JAtom (JStr "Student created successfully"));
                     ("student", JObject [("id", JAtom id);
                                          ("email", JAtom email);
                                          ("name", JAtom name)]);
                     ("token", JAtom (JStr token))])).

(** [verify_password] applied to a stored column value. *)
Definition check_password (plain : string) (stored : jval) : bool :=
  match stored with
  | JStr h => match AuthManager.verify_password plain h with
              | Ok b => b
              | Raise _ => false
              end
  | _ => false
  end.

Definition student_login (t_expire t_iat : Z) (credentials : StudentLogin)
  : Db.M json :=
  reraise_as 500 "Login failed" (
    student ← Db.get_student_by_email (login_email credentials);
    if negb (dict_truthy student) then http 401 "Invalid credentials"
    else
      stored ← Db.lift (getitem student "password_hash");
      if negb (check_password (login_password credentials) stored)
      then http 401 "Invalid credentials"
      else
        id ← Db.lift (getitem student "id");
        email ← Db.lift (getitem student "email");
        token ← Db.lift (AuthManager.create_access_token config
                           t_expire t_iat
                           (<["sub" := JStr (str_of id)]>
                              (<["email" := email]> ∅))
                           "student");
        name ← Db.lift (getitem student "name");
        Db.ret (JObject
                  [("message", JAtom (JStr "Login successful"));
                   ("student", JObject [("id", JAtom id);
                                        ("email", JAtom email);
                                        ("name", JAtom name)]);
                   ("token", JAtom (JStr token))])).

Definition admin_login (t_expire t_iat : Z) (credentials : AdminLogin)
  : Db.M json :=
  reraise_as 500 "Login failed" (
    admin ← Db.get_admin_by_username (login_username credentials);
    if negb (dict_truthy admin) then http 401 "Invalid credentials"
    else
      stored ← Db.lift (getitem admin "password_hash");
      if negb (check_password (admin_password credentials) stored)
      then http 401 "Invalid credentials"
      else
        id ← Db.lift (getitem admin "id");
        username ← Db.lift (getitem admin "username");
        token ← Db.lift (AuthManager.create_access_token config
                           t_expire t_iat
                           (<["sub" := JStr (str_of id)]>
                              (<["username" := username]> ∅))
                           "admin");
        Db.ret (JObject
                  [("message", JAtom (JStr "Login successful"));
                   ("admin", JObject [("id", JAtom id);
                                      ("username", JAtom username)]);
                   ("token", JAtom (JStr token))])).

Definition get_courses : Db.M json :=
  reraise_as 500 "Failed to fetch courses" (
    courses ← Db.get_all_courses;
    Db.ret (JObject [("courses", JRows courses)])).

Definition create_course (course : CourseCreate) (current_user : claims)
  : Db.M json :=
  reraise_as 500 "Failed to create course" (
    if negb (type_is current_user "admin")
    then http 403 "Admin access required"
    else
      sub ← Db.lift (getitem (Some current_user) "sub");
      created_by ← Db.lift (int_of sub);
      new_course ← Db.create_course (course_title course)
                     (course_description course) created_by;
      _ ← Db.lift (getitem new_course "id");
      Db.ret (JObject
                [("message", JAtom (JStr "Course created successfully"));
                 ("course", match new_course with
                            | Some r => JRow r
                            | None => JAtom JNull
                            end)])).

Definition update_course (course_id : Z) (course : CourseUpdate)
    (current_user : claims) : Db.M json :=
  reraise_as 500 "Failed to update course" (
    if negb (type_is current_user "admin")
    then http 403 "Admin access required"
    else
      existing_course ← Db.get_course_by_id course_id;
      if negb (dict_truthy existing_course) then http 404 "Course not found"
      else
        updated_course ← Db.update_course course_id (update_title course)
                           (update_description course);
        Db.ret (JObject
                  [("message", JAtom (JStr "Course updated successfully"));
                   ("course", match updated_course with
                              | Some r => JRow r
                              | None => JAtom JNull
                              end)])).

Definition delete_course (course_id : Z) (current_user : claims)
  : Db.M json :=
  reraise_as 500 "Failed to delete course" (
    if negb (type_is current_user "admin")
    then http 403 "Admin access required"
    else
      existing_course ← Db.get_course_by_id course_id;
      if negb (dict_truthy existing_course) then http 404 "Course not found"
      else
        _ ← Db.delete_course course_id;
        Db.ret (JObject
                  [("message", JAtom (JStr "Course deleted successfully"))])).

Definition get_students (current_user : claims) : Db.M json :=
  reraise_as 500 "Failed to fetch students" (
    if negb (type_is current_user "admin")
    then http 403 "Admin access required"
    else
      students ← Db.get_all_students;
      Db.ret (JObject [("students", JRows students)])).

Definition enroll_student (enrollment : EnrollmentCreate)
    (current_user : claims) : Db.M json :=
  reraise_as 500 "Failed to enroll student" (
    if negb (type_is current_user "admin")
    then http 403 "Admin access required"
    else
      course ← Db.get_course_by_id (enrollment_course_id enrollment);
      if negb (dict_truthy course) then http 404 "Course not found"
      else
        new_enrollment ← Db.enroll_student (enrollment_student_id enrollment)
                           (enrollment_course_id enrollment);
        if negb (dict_truthy new_enrollment)
        then Db.ret (JObject
                       [("message",
                         JAtom (JStr "Student already enrolled in this course"))])
        else
          _ ← Db.lift (getitem new_enrollment "id");
          Db.ret (JObject
                    [("message", JAtom (JStr "Student enrolled successfully"));
                     ("enrollment", match new_enrollment with
                                    | Some r => JRow r
                                    | None => JAtom JNull
                                    end)])).

Definition unenroll_student (student_id course_id : Z)
    (current_user : claims) : Db.M json :=
  reraise_as 500 "Failed to unenroll student" (
    if negb (type_is current_user "admin")
    then http 403 "Admin access required"
    else
      _ ← Db.unenroll_student student_id course_id;
      Db.ret (JObject
                [("message", JAtom (JStr "Student unenrolled successfully"))])).

(** Line 519: [current_user.get("type") == "student" and
    int(current_user["sub"]) != student_id]; the right operand is only
    evaluated for a student. *)
Definition other_student (student_id : Z) (current_user : claims)
  : result bool :=
  if type_is current_user "student"
  then sub ← getitem (Some current_user) "sub";
       n ← int_of sub;
       Ok (negb (n =? student_id))
  else Ok false.

Definition get_student_courses (student_id : Z) (current_user : claims)
  : Db.M json :=
  reraise_as 500 "Failed to fetch student courses" (
    denied ← Db.lift (other_student student_id current_user);
    if (denied : bool) then http 403 "Access denied"
    else
      courses ← Db.get_student_courses student_id;
      Db.ret (JObject [("courses", JRows courses)])).

Definition get_course_students (course_id : Z) (current_user : claims)
  : Db.M json :=
  reraise_as 500 "Failed to fetch course students" (
    if negb (type_is current_user "admin")
    then http 403 "Admin access required"
    else
      students ← Db.get_course_students course_id;
      Db.ret (JObject [("students", JRows students)])).

(** *** Routing

    The endpoints declared with [Depends(get_current_user)].  FastAPI
    resolves the dependency first and calls the handler only with the
    payload it returned; an exception of the dependency is the outcome of
    the request. *)
Inductive endpoint :=
  | POST_courses (course : CourseCreate)
  | PUT_courses (course_id : Z) (course : CourseUpdate)
  | DELETE_courses (course_id : Z)
  | GET_students
  | POST_enrollments (enrollment : EnrollmentCreate)
  | DELETE_enrollments (student_id course_id : Z)
  | GET_students_courses (student_id : Z)
  | GET_courses_students (course_id : Z).

Definition handler (e : endpoint) : claims → Db.M json :=
  match e with
  | POST_courses course => create_course course
  | PUT_courses course_id course => update_course course_id course
  | DELETE_courses course_id => delete_course course_id
  | GET_students => get_students
  | POST_enrollments enrollment => enroll_student enrollment
  | DELETE_enrollments student_id course_id =>
      unenroll_student student_id course_id
  | GET_students_courses student_id => get_student_courses student_id
  | GET_courses_students course_id => get_course_students course_id
  end.

Definition dispatch (now : Z) (authorization : option string)
    (e : endpoint) : Db.M json :=
  current_user ← Db.lift (get_current_user now authorization);
  handler e current_user.

End with_services.

(** The test of line 118 on the header value. *)
Definition bearer_format (a : string) : Prop :=
  length (Py.split a) = 2%nat
  ∧ Py.lower (nth 0 (Py.split a) "") = "bearer".

(** [parts[1]] *)
Definition bearer_token (a : string) : string := nth 1 (Py.split a) "".

(** The two bodies [enroll_student] returns. *)
Definition already_enrolled : json :=
  JObject
    [("message", JAtom (JStr "Student already enrolled in this course"))].

Definition enrolled (r : Db.row) : json :=
  JObject
    [("message", JAtom (JStr "Student enrolled successfully"));
     ("enrollment", JRow r)].

(** The body [student_signup] and [student_login] return for a student
    row and a token. *)
Definition student_session (message : string) (s : Db.student)
    (token : string) : json :=
  JObject
    [("message", JAtom (JStr message));
     ("student", JObject [("id", JAtom (JNum (Db.s_id s)));
                          ("email", JAtom (JStr (Db.s_email s)));
                          ("name", JAtom (Db.opt_str (Db.s_name s)))]);
     ("token", JAtom (JStr token))].

(** The body [admin_login] returns. *)
Definition admin_session (a : Db.admin) (token : string) : json :=
  JObject
    [("message", JAtom (JStr "Login successful"));
     ("admin", JObject [("id", JAtom (JNum (Db.a_id a)));
                        ("username", JAtom (JStr (Db.a_username a)))]);
     ("token", JAtom (JStr token))].

(** The data the three handlers hand to [create_access_token]. *)
Definition student_data (s : Db.student) : claims :=
  <["sub" := JStr (Py.str (Db.s_id s))]>
    (<["email" := JStr (Db.s_email s)]> ∅).

Definition admin_data (a : Db.admin) : claims :=
  <["sub" := JStr (Py.str (Db.a_id a))]>
    (<["username" := JStr (Db.a_username a)]> ∅).

(** The status code of the response FastAPI builds from an outcome. *)
Definition status_of {A} (r : result A) : Z :=
  match r with
  | Ok _ => 200
  | Raise (HTTPException s _) => s
  | Raise _ => 500
  end.

End App.

(** ** Executable stand-ins for the two libraries

    A length-prefixed text encoding plays the part of the compact
    serialisation, and a tag computed from key and body the part of the
    HMAC.  They make the interfaces inhabited and let the definitions above
    run on concrete requests; nothing about their strength is claimed. *)

Module Sim.

Fixpoint put_pos (p : positive) (rest : string) : string :=
  match p with
  | xH => String "." rest
  | xO q => String "0" (put_pos q rest)
  | xI q => String "1" (put_pos q rest)
  end.

Fixpoint get_pos (s : string) : option (positive * string) :=
  match s with
  | EmptyString => None
  | String c r =>
      if Ascii.eqb c "." then Some (xH, r)
      else if Ascii.eqb c "0"
      then match get_pos r with
           | Some (q, r') => Some (xO q, r')
           | None => None
           end
      else if Ascii.eqb c "1"
      then match get_pos r with
           | Some (q, r') => Some (xI q, r')
           | None => None
           end
      else None
  end.

Definition put_Z (z : Z) (rest : string) : string :=
  match z with
  | Z0 => String "z" rest
  | Zpos p => String "p" (put_pos p rest)
  | Zneg p => String "n" (put_pos p rest)
  end.

Definition get_Z (s : string) : option (Z * string) :=
  match s with
  | EmptyString => None
  | String c r =>
      if Ascii.eqb c "z" then Some (Z0, r)
      else if Ascii.eqb c "p"
      then match get_pos r with
           | Some (q, r') => Some (Zpos q, r')
           | None => None
           end
      else if Ascii.eqb c "n"
      then match get_pos r with
           | Some (q, r') => Some (Zneg q, r')
           | None => None
           end
      else None
  end.

Fixpoint take (n : nat) (s : string) : option (string * string) :=
  match n with
  | O => Some (EmptyString, s)
  | S m => match s with
           | EmptyString => None
           | String c r => match take m r with
                           | Some (a, b) => Some (String c a, b)
                           | None => None
                           end
           end
  end.

Definition put_str (s rest : string) : string :=
  put_Z (Z.of_nat (String.length s)) (s +:+ rest).

Definition get_str (s : string) : option (string * string) :=
  match get_Z s with
  | Some (n, r) => take (Z.to_nat n) r
  | None => None
  end.

Definition put_jval (v : jval) (rest : string) : string :=
  match v with
  | JNull => String "N" rest
  | JBool true => String "T" rest
  | JBool false => String "F" rest
  | JNum n => String "I" (put_Z n rest)
  | JStr s => String "S" (put_str s rest)
  end.

Definition get_jval (s : string) : option (jval * string) :=
  match s with
  | EmptyString => None
  | String c r =>
      if Ascii.eqb c "N" then Some (JNull, r)
      else if Ascii.eqb c "T" then Some (JBool true, r)
      else if Ascii.eqb c "F" then Some (JBool false, r)
      else if Ascii.eqb c "I"
      then match get_Z r with
           | Some (n, r') => Some (JNum n, r')
           | None => None
           end
      else if Ascii.eqb c "S"
      then match get_str r with
           | Some (x, r') => Some (JStr x, r')
           | None => None
           end
      else None
  end.

Fixpoint put_items (l : list (string * jval)) (rest : string) : string :=
  match l with
  | [] => rest
  | (k, v) :: l' => put_str k (put_jval v (put_items l' rest))
  end.

Fixpoint get_items (n : nat) (s : string)
  : option (list (string * jval) * string) :=
  match n with
  | O => Some ([], s)
  | S m =>
      match get_str s with
      | Some (k, r1) =>
          match get_jval r1 with
          | Some (v, r2) =>
              match get_items m r2 with
              | Some (l, r3) => Some ((k, v) :: l, r3)
              | None => None
              end
          | None => None
          end
      | None => None
      end
  end.

Definition put_dict (c : claims) (rest : string) : string :=
  let l := map_to_list c in
  put_Z (Z.of_nat (length l)) (put_items l rest).

Definition get_dict (s : string) : option (claims * string) :=
  match get_Z s with
  | Some (n, r) =>
      match get_items (Z.to_nat n) r with
      | Some (l, r') => Some (list_to_map l, r')
      | None => None
      end
  | None => None
  end.

(** header and payload *)
Definition body (alg : string) (c : claims) : string :=
  put_str alg (put_dict c EmptyString).

Definition tag (key body : string) : string := put_str key body.

Definition sign (c : claims) (key alg : string) : result string :=
  if String.eqb alg "HS256"
  then Ok (put_str (tag key (body alg c)) (body alg c))
  else Raise JWTError.

Definition verify (token key : string) (algs : list string)
  : result claims :=
  match get_str token with
  | Some (sig, b) =>
      if String.eqb sig (tag key b)
      then match get_str b with
           | Some (alg, r) =>
               if existsb (String.eqb alg) algs
               then match get_dict r with
                    | Some (c, EmptyString) => Ok c
                    | _ => Raise JWTError
                    end
               else Raise JWTError
           | None => Raise JWTError
           end
      else Raise JWTError
  | None => Raise JWTError
  end.

(** A hash string the context recognises starts with its scheme marker;
    anything else cannot be identified and [verify] raises. *)
Definition hash (salt password : string) : result string :=
  Ok ("$sim$" +:+ put_str salt password).

Definition check (plain hashed : string) : result bool :=
  match take 5 hashed with
  | Some (m, r) =>
      if String.eqb m "$sim$"
      then match get_str r with
           | Some (_, pw) => Ok (String.eqb pw plain)
           | None => Raise UnknownHashError
           end
      else Raise UnknownHashError
  | None => Raise UnknownHashError
  end.

End Sim.

(** *** The stand-ins meet the interfaces *)

Module SimFacts.
Import Sim.

Lemma get_put_pos p rest : get_pos (put_pos p rest) = Some (p, rest).
Proof.
  induction p as [q IH | q IH |]; cbn; [rewrite IH .. |]; reflexivity.
Qed.

Lemma get_put_Z z rest : get_Z (put_Z z rest) = Some (z, rest).
Proof.
  destruct z; cbn; [| rewrite get_put_pos ..]; reflexivity.
Qed.

Lemma take_app s rest : take (String.length s) (s +:+ rest) = Some (s, rest).
Proof.
  induction s as [| c s IH]; [reflexivity |].
  change (String c s +:+ rest) with (String c (s +:+ rest)).
  cbn. rewrite IH. reflexivity.
Qed.

Lemma get_put_str s rest : get_str (put_str s rest) = Some (s, rest).
Proof.
  unfold get_str, put_str.
  rewrite get_put_Z, Nat2Z.id. apply take_app.
Qed.

Lemma get_put_jval v rest : get_jval (put_jval v rest) = Some (v, rest).
Proof.
  destruct v as [| [|] | n | s]; cbn;
    [| | | rewrite get_put_Z | rewrite get_put_str]; reflexivity.
Qed.

Lemma get_put_items l rest :
  get_items (length l) (put_items l rest) = Some (l, rest).
Proof.
  induction l as [| [k v] l IH]; cbn; [reflexivity |].
  rewrite get_put_str, get_put_jval, IH. reflexivity.
Qed.

Lemma get_put_dict (c : claims) rest :
  get_dict (put_dict c rest) = Some (c, rest).
Proof.
  unfold get_dict, put_dict.
  rewrite get_put_Z, Nat2Z.id, get_put_items, list_to_map_to_list.
  reflexivity.
Qed.

Lemma verify_sign (c : claims) key :
  ∃ token, sign c key "HS256" = Ok token
           ∧ verify token key ["HS256"] = Ok c.
Proof.
  eexists; split; [reflexivity |].
  unfold verify. rewrite get_put_str, String.eqb_refl.
  unfold body. rewrite get_put_str, get_put_dict. reflexivity.
Qed.

End SimFacts.

Definition sim_jws : JWS :=
  {| jws_sign := Sim.sign;
     jws_verify := Sim.verify;
     jws_verify_sign := SimFacts.verify_sign |}.

Definition sim_passlib : Passlib :=
  {| ctx_hash := Sim.hash; ctx_verify := Sim.check |}.

(** ** Fixtures for the concrete runs *)

Module Demo.
Import Db.

(** The store after startup: the schema and the seeded admin. *)
Definition seeded : Connection := snd (seed_admin "admin" "h0" fresh).

(** ... after student 1 was created, *)
Definition with_student : Connection :=
  snd (create_student "a@x.com" "h1" None seeded).

(** ... course 1 was created by the admin, *)
Definition with_course : Connection :=
  snd (create_course "T" "D" 1 with_student).

(** ... and student 1 was enrolled in course 1. *)
Definition with_enrollment : Connection :=
  snd (enroll_student 1 1 with_course).

Definition course1 : course :=
  {| c_id := 1; c_title := "T"; c_description := "D"; c_created_by := 1 |}.

(** The data [student_login] hands to issuance for student 7. *)
Definition student7 : claims :=
  <["sub" := JStr "7"]> (<["email" := JStr "a@x.com"]> ∅).

(** The payload of an admin token. *)
Definition admin1 : claims :=
  AuthManager.to_encode test_config 0 0 (<["sub" := JStr "1"]> ∅) "admin".

Definition pair11 : App.EnrollmentCreate :=
  {| App.enrollment_student_id := 1; App.enrollment_course_id := 1 |}.

Definition signup_a (password : string) : App.StudentSignup :=
  {| App.signup_email := "a@x.com"; App.signup_password := password;
     App.signup_name := None |}.

(** A payload signed with the service's key whose ["type"] is neither
    role of the service. *)
Definition guest : claims := <["sub" := JStr "7"]> ∅.

Definition token_of (r : result string) : string :=
  match r with Ok t => t | Raise _ => "" end.

Definition guest_token : string :=
  token_of (@AuthManager.create_access_token sim_jws test_config 0 0
              guest "guest").


Definition bearer (token : string) : option string :=
  Some ("Bearer " +:+ token).

(** The store after startup and one signup over HTTP. *)
Definition signed_up : Connection :=
  snd (@App.student_signup sim_jws sim_passlib test_config "salt" 0 0
         (signup_a "secret1") seeded).

(** The hash the stand-in hasher returns for that signup. *)
Definition hash_a : string := "$sim$" +:+ Sim.put_str "salt" "secret1".

Definition login_a (password : string) : App.StudentLogin :=
  {| App.login_email := "a@x.com"; App.login_password := password |}.

(** The payload of a student token, and one with no subject. *)
Definition student1 : claims :=
  AuthManager.to_encode test_config 0 0 (<["sub" := JStr "1"]> ∅) "student".


Definition course_t : App.CourseCreate :=
  {| App.course_title := "T"; App.course_description := "D" |}.

Definition update_t : App.CourseUpdate :=
  {| App.update_title := "T2"; App.update_description := "D2" |}.

End Demo.

(** * Properties *)

(** ** Tokens: issuance and verification *)

Section Tokens.
Context `{!JWS}.

Lemma Config_init_jwt getenv m config :
  Config_init getenv m = Ok config →
  jwt_algorithm config = "HS256" ∧ jwt_expiration_hours config = 24.
Proof.
  unfold Config_init. intros Hinit.
  destruct (bool_decide (m = "prod"));
    repeat match type of Hinit with
           | context [match ?x with _ => _ end] => destruct x
           end;
    inversion Hinit; subst; split; reflexivity.
Qed.

Lemma to_encode_iat config t_expire t_iat (data : claims) user_type :
  AuthManager.to_encode config t_expire t_iat data user_type !! "iat"
  = Some (JNum t_iat).
Proof. unfold AuthManager.to_encode. apply lookup_insert_eq. Qed.

Lemma to_encode_type config t_expire t_iat (data : claims) user_type :
  AuthManager.to_encode config t_expire t_iat data user_type !! "type"
  = Some (JStr user_type).
Proof.
  unfold AuthManager.to_encode.
  rewrite lookup_insert_ne by discriminate. apply lookup_insert_eq.
Qed.

Lemma to_encode_exp config t_expire t_iat (data : claims) user_type :
  AuthManager.to_encode config t_expire t_iat data user_type !! "exp"
  = Some (JNum (t_expire + jwt_expiration_hours config * 3600)).
Proof.
  unfold AuthManager.to_encode.
  do 2 rewrite lookup_insert_ne by discriminate. apply lookup_insert_eq.
Qed.

Lemma to_encode_other config t_expire t_iat (data : claims) user_type k :
  k ≠ "iat" → k ≠ "type" → k ≠ "exp" →
  AuthManager.to_encode config t_expire t_iat data user_type !! k
  = data !! k.
Proof.
  intros H1 H2 H3. unfold AuthManager.to_encode.
  do 3 rewrite lookup_insert_ne by congruence. reflexivity.
Qed.

(** What jose's validators answer on an issued payload: everything but
    the expiry check passes. *)
Lemma validate_issued config t_expire t_iat (data : claims) sid user_type now :
  data !! "sub" = Some (JStr sid) →
  data !! "nbf" = None → data !! "aud" = None →
  data !! "jti" = None → data !! "at_hash" = None →
  Jose.validate_claims now
    (AuthManager.to_encode config t_expire t_iat data user_type)
  = negb (t_expire + jwt_expiration_hours config * 3600 <? now).
Proof.
  intros Hsub Hnbf Haud Hjti Hat.
  unfold Jose.validate_claims, Jose.validate_iat, Jose.validate_nbf,
    Jose.validate_exp, Jose.validate_aud, Jose.validate_str,
    Jose.validate_at_hash.
  rewrite to_encode_iat, to_encode_exp.
  rewrite !to_encode_other by discriminate.
  rewrite Hsub, Hnbf, Haud, Hjti, Hat. cbn.
  rewrite !andb_true_r. reflexivity.
Qed.

Lemma create_access_token_ok getenv m config t_expire t_iat data user_type :
  Config_init getenv m = Ok config →
  ∃ token,
    AuthManager.create_access_token config t_expire t_iat data user_type
    = Ok token
    ∧ jws_verify token (jwt_secret config) [jwt_algorithm config]
      = Ok (AuthManager.to_encode config t_expire t_iat data user_type).
Proof.
  intros Hinit. destruct (Config_init_jwt _ _ _ Hinit) as [Halg _].
  unfold AuthManager.create_access_token, Jose.encode. rewrite Halg.
  apply jws_verify_sign.
Qed.

(** C1.  A token issued for a subject id and a role verifies, up to and
    including the second [exp], to a payload with that subject id and that
    role; from the first second after [exp] on, [verify_token] returns
    [None].  [exp] is the clock reading at issuance plus the 24 hours of
    the configuration.  The data handed to issuance carries the subject id
    as a string, as the handlers pass it, and none of the claims jose
    checks on its own ([nbf], [aud], [jti], [at_hash]). *)
Theorem verify_issued_token getenv m config t_expire t_iat
    (data : claims) sid user_type :
  Config_init getenv m = Ok config →
  data !! "sub" = Some (JStr sid) →
  data !! "nbf" = None → data !! "aud" = None →
  data !! "jti" = None → data !! "at_hash" = None →
  ∃ token,
    AuthManager.create_access_token config t_expire t_iat data user_type
    = Ok token
    ∧ (∀ now, now ≤ t_expire + 24 * 3600 →
         ∃ payload,
           AuthManager.verify_token config now token = Some payload
           ∧ payload !! "sub" = Some (JStr sid)
           ∧ payload !! "type" = Some (JStr user_type))
    ∧ (∀ now, t_expire + 24 * 3600 < now →
         AuthManager.verify_token config now token = None).
Proof.
  intros Hinit Hsub Hnbf Haud Hjti Hat.
  destruct (create_access_token_ok _ _ _ t_expire t_iat data user_type Hinit)
    as (token & Hcreate & Hverify).
  destruct (Config_init_jwt _ _ _ Hinit) as [_ Hhours].
  exists token. split; [exact Hcreate |].
  assert (Hdec : ∀ now,
    AuthManager.verify_token config now token
    = if negb (t_expire + 24 * 3600 <? now)
      then Some (AuthManager.to_encode config t_expire t_iat data user_type)
      else None).
  { intros now. unfold AuthManager.verify_token, Jose.decode.
    rewrite Hverify.
    rewrite (validate_issued _ _ _ _ sid) by assumption.
    rewrite Hhours. destruct (negb _); reflexivity. }
  split; intros now Hnow; rewrite Hdec.
  - replace (t_expire + 24 * 3600 <? now) with false
      by (symmetry; apply Z.ltb_ge; lia).
    cbn. eexists. split; [reflexivity |]. split.
    + rewrite to_encode_other by discriminate. exact Hsub.
    + apply to_encode_type.
  - replace (t_expire + 24 * 3600 <? now) with true
      by (symmetry; apply Z.ltb_lt; lia).
    reflexivity.
Qed.

(** C4, as amended.  In the payload of an issued token, [exp] is the clock
    reading taken when the expiry is computed plus exactly 24 hours
    (86400 seconds), and [iat] is the later, separate clock reading; the two
    are 24 hours apart whenever both readings are the same second. *)
Theorem issued_expiry getenv m config t_expire t_iat (data : claims) user_type :
  Config_init getenv m = Ok config →
  ∃ token payload,
    AuthManager.create_access_token config t_expire t_iat data user_type
    = Ok token
    ∧ jws_verify token (jwt_secret config) [jwt_algorithm config] = Ok payload
    ∧ payload !! "exp" = Some (JNum (t_expire + 86400))
    ∧ payload !! "iat" = Some (JNum t_iat)
    ∧ (t_iat = t_expire → payload !! "exp" = Some (JNum (t_iat + 86400))).
Proof.
  intros Hinit.
  destruct (create_access_token_ok _ _ _ t_expire t_iat data user_type Hinit)
    as (token & Hcreate & Hverify).
  destruct (Config_init_jwt _ _ _ Hinit) as [_ Hhours].
  exists token. eexists. split; [exact Hcreate |]. split; [exact Hverify |].
  assert (Hexp : AuthManager.to_encode config t_expire t_iat data user_type
                 !! "exp" = Some (JNum (t_expire + 86400))).
  { rewrite to_encode_exp, Hhours. reflexivity. }
  split; [exact Hexp |]. split; [apply to_encode_iat |].
  intros ->. exact Hexp.
Qed.

End Tokens.

(** ** Password verification *)

(** C7.  Whatever the plaintext and the hash string, and whatever the
    hashing backend does with them, [verify_password] returns a boolean and
    raises nothing; when the backend raises, the boolean is [false], and
    otherwise it is the backend's answer. *)
Theorem verify_password_total `{!Passlib} (plain_password hashed_password : string) :
  ∃ b : bool,
    AuthManager.verify_password plain_password hashed_password = Ok b
    ∧ (∀ e, ctx_verify plain_password hashed_password = Raise e → b = false)
    ∧ (∀ r, ctx_verify plain_password hashed_password = Ok r → b = r).
Proof.
  unfold AuthManager.verify_password.
  destruct (ctx_verify plain_password hashed_password) as [r | e].
  - exists r. repeat split; congruence.
  - exists false. repeat split; congruence.
Qed.

(** A string that is no hash at all: the backend raises, the method
    answers [False]. *)
Example verify_password_malformed :
  @ctx_verify sim_passlib "secret1" "not-a-hash" = Raise UnknownHashError
  ∧ @AuthManager.verify_password sim_passlib "secret1" "not-a-hash" = Ok false.
Proof. split; reflexivity. Qed.

(** ** The authorization gate *)

Section Gate.
Import App.
Context `{!JWS}.
Variable config : Config.

Lemma get_current_user_rejects now authorization :
  authorization = None
  ∨ (∃ a, authorization = Some a
          ∧ (¬ bearer_format a
             ∨ AuthManager.verify_token config now (bearer_token a) = None)) →
  ∃ detail,
    App.get_current_user config now authorization
    = Raise (HTTPException 401 detail).
Proof.
  unfold App.get_current_user.
  intros [-> | (a & -> & Hbad)]; [eexists; reflexivity |].
  destruct (Py.is_empty a); [eexists; reflexivity |].
  destruct (bool_decide (length (Py.split a) ≠ 2%nat)
            || negb (String.eqb (Py.lower (nth 0 (Py.split a) "")) "bearer"))
    eqn:Hfmt; [eexists; reflexivity |].
  destruct Hbad as [Hnot | Hnone].
  - exfalso. apply Hnot.
    apply orb_false_iff in Hfmt as [Hlen Hscheme].
    apply bool_decide_eq_false in Hlen.
    apply negb_false_iff, String.eqb_eq in Hscheme.
    split; [| exact Hscheme].
    destruct (decide (length (Py.split a) = 2%nat)); [assumption | contradiction].
  - fold (bearer_token a). rewrite Hnone. eexists; reflexivity.
Qed.

Lemma get_current_user_accepts now authorization payload :
  App.get_current_user config now authorization = Ok payload →
  ∃ a, authorization = Some a ∧ bearer_format a
       ∧ AuthManager.verify_token config now (bearer_token a) = Some payload
       ∧ payload ≠ ∅.
Proof.
  unfold App.get_current_user.
  destruct authorization as [a |]; [| discriminate].
  destruct (Py.is_empty a); [discriminate |].
  destruct (bool_decide (length (Py.split a) ≠ 2%nat)
            || negb (String.eqb (Py.lower (nth 0 (Py.split a) "")) "bearer"))
    eqn:Hfmt; [discriminate |].
  fold (bearer_token a).
  destruct (AuthManager.verify_token config now (bearer_token a)) as [p |]
    eqn:Hv; [| discriminate].
  cbn. destruct (bool_decide (p = ∅)) eqn:He; cbn; [discriminate |].
  intros [= <-]. exists a. split; [reflexivity |].
  apply orb_false_iff in Hfmt as [Hlen Hscheme].
  apply bool_decide_eq_false in Hlen.
  apply negb_false_iff, String.eqb_eq in Hscheme.
  apply bool_decide_eq_false in He.
  repeat split; try assumption.
  destruct (decide (length (Py.split a) = 2%nat)); [assumption | contradiction].
Qed.

(** C6.  On every endpoint that depends on [get_current_user], a request
    whose Authorization header is absent, or fails the two-part
    [bearer <token>] test, or carries a token that [verify_token] rejects,
    ends in an [HTTPException] with status 401, and the connection is left
    exactly as it was: no handler and no query ran. *)
Theorem unauthenticated_is_401 now authorization (e : App.endpoint)
    (conn : Db.Connection) :
  authorization = None
  ∨ (∃ a, authorization = Some a
          ∧ (¬ bearer_format a
             ∨ AuthManager.verify_token config now (bearer_token a) = None)) →
  ∃ detail,
    App.dispatch config now authorization e conn
    = (Raise (HTTPException 401 detail), conn).
Proof.
  intros Hbad.
  destruct (get_current_user_rejects now authorization Hbad) as [detail Hr].
  exists detail. unfold App.dispatch.
  unfold mbind, Db.M_bind, Db.bind, Db.lift. rewrite Hr. reflexivity.
Qed.

(** A token that verifies to the empty dict is turned away: line 128 tests
    [not payload]. *)
Lemma empty_payload_is_401 now a (e : App.endpoint) (conn : Db.Connection) :
  bearer_format a →
  AuthManager.verify_token config now (bearer_token a) = Some ∅ →
  App.dispatch config now (Some a) e conn
  = (Raise (HTTPException 401 "Invalid or expired token"), conn).
Proof.
  intros [Hlen Hscheme] Hverify.
  unfold App.dispatch, mbind, Db.M_bind, Db.bind, Db.lift,
    App.get_current_user.
  assert (Py.is_empty a = false) as ->.
  { destruct a; [discriminate Hlen | reflexivity]. }
  rewrite bool_decide_eq_false_2 by (intros Hx; apply Hx; exact Hlen).
  rewrite Hscheme. cbn. fold (bearer_token a). rewrite Hverify.
  reflexivity.
Qed.

(** The query behind [GET /api/students/{id}/courses] never fails. *)
Lemma get_student_courses_rows student_id (conn : Db.Connection) :
  ∃ rows, Db.get_student_courses student_id conn = (Ok rows, conn).
Proof.
  destruct conn as [ct wk sq]. eexists.
  unfold Db.get_student_courses, mbind, Db.M_bind, Db.bind, Db.execute_query.
  cbn. reflexivity.
Qed.

Lemma get_student_courses_granted student_id (current_user : claims)
    (conn : Db.Connection) :
  current_user !! "type" ≠ Some (JStr "student") →
  ∃ rows,
    Db.get_student_courses student_id conn = (Ok rows, conn)
    ∧ App.get_student_courses student_id current_user conn
      = (Ok (App.JObject [("courses", App.JRows rows)]), conn).
Proof.
  intros Hty.
  destruct (get_student_courses_rows student_id conn) as [rows Hrows].
  exists rows. split; [exact Hrows |].
  unfold App.get_student_courses, App.reraise_as, App.other_student,
    App.type_is.
  rewrite bool_decide_eq_false_2 by exact Hty.
  unfold mbind, Db.M_bind, Db.bind, Db.lift. cbn.
  unfold Db.bind. rewrite Hrows. reflexivity.
Qed.


End Gate.

(** ** The store *)

Section Store.
Import Db.

Lemma existsb_app_l {A} (f : A → bool) l1 l2 :
  existsb f l1 = true → existsb f (l1 ++ l2) = true.
Proof. rewrite existsb_app. intros ->. reflexivity. Qed.

Lemma existsb_filter_keep {A} (f g : A → bool) l :
  (∀ x, In x l → f x = true → g x = true) →
  existsb f l = true → existsb f (List.filter g l) = true.
Proof.
  intros Hk Hex. apply existsb_exists in Hex as (x & Hin & Hf).
  apply existsb_exists. exists x. split; [| exact Hf].
  apply filter_In. split; [exact Hin | apply Hk; assumption].
Qed.

Lemma has_course_set_course ti de cid cs c :
  existsb (λ x, c_id x =? c) (List.map (set_course ti de cid) cs)
  = existsb (λ x, c_id x =? c) cs.
Proof.
  induction cs as [| x cs IH]; [reflexivity |]. cbn. rewrite IH. f_equal.
  unfold set_course. destruct (c_id x =? cid); reflexivity.
Qed.

(** One statement keeps the foreign keys of [enrollments] intact. *)
Lemma execute_fk_ok q sq sq' t t' rows :
  execute q sq t = (sq', Ok (t', rows)) → fk_ok t → fk_ok t'.
Proof.
  unfold fk_ok, has_student, has_course.
  destruct q; cbn; intros Hex Hfk;
    repeat match type of Hex with
           | context [if ?b then _ else _] => destruct b eqn:?
           end;
    inversion Hex; subst; clear Hex; cbn; try exact Hfk.
  - (* InsertStudent *)
    intros e He. destruct (Hfk e He) as [Hs Hc].
    split; [apply existsb_app_l |]; assumption.
  - (* DeleteStudent *)
    intros e He. apply filter_In in He as [He Hne].
    destruct (Hfk e He) as [Hs Hc]. split; [| exact Hc].
    apply existsb_filter_keep; [| exact Hs].
    intros x _ Hx. apply Z.eqb_eq in Hx. rewrite Hx. exact Hne.
  - (* InsertCourse *)
    intros e He. destruct (Hfk e He) as [Hs Hc].
    split; [| apply existsb_app_l]; assumption.
  - (* UpdateCourse *)
    intros e He. destruct (Hfk e He) as [Hs Hc].
    split; [exact Hs |]. rewrite has_course_set_course. exact Hc.
  - (* DeleteCourse *)
    intros e He. apply filter_In in He as [He Hne].
    destruct (Hfk e He) as [Hs Hc]. split; [exact Hs |].
    apply existsb_filter_keep; [| exact Hc].
    intros x _ Hx. apply Z.eqb_eq in Hx. rewrite Hx. exact Hne.
  - (* InsertEnrollment *)
    intros e He. apply in_app_iff in He as [He | [<- | []]].
    + exact (Hfk e He).
    + cbn. split; apply negb_false_iff; assumption.
  - (* DeleteEnrollment *)
    intros e He. apply filter_In in He as [He _]. exact (Hfk e He).
Qed.

(** The connection [execute_query] leaves holds, in both of its table
    sets, either what was committed before or what the statement made. *)
Lemma execute_query_tables q fetch conn :
  let conn' := snd (execute_query q fetch conn) in
  (committed conn' = committed conn
   ∨ ∃ sq rows, execute q (seqs conn) (working conn)
                = (sq, Ok (committed conn', rows)))
  ∧ (working conn' = committed conn
     ∨ ∃ sq rows, execute q (seqs conn) (working conn)
                  = (sq, Ok (working conn', rows))).
Proof.
  unfold execute_query.
  destruct (execute q (seqs conn) (working conn)) as [sq [[t rows] | e]];
    cbn; [| split; left; reflexivity].
  destruct fetch; [destruct (returns_rows q) |]; cbn;
    split; eauto.
Qed.

Lemma execute_query_fk_ok q fetch conn :
  fk_ok (committed conn) → fk_ok (working conn) →
  fk_ok (committed (snd (execute_query q fetch conn)))
  ∧ fk_ok (working (snd (execute_query q fetch conn))).
Proof.
  intros Hc Hw.
  destruct (execute_query_tables q fetch conn) as [[-> | (sq & rows & H1)]
                                                     [-> | (sq' & rows' & H2)]];
    split; try assumption;
    eapply execute_fk_ok; eassumption.
Qed.

Lemma NoDup_map_filter {A B} (g : A → B) (f : A → bool) l :
  List.NoDup (List.map g l) → List.NoDup (List.map g (List.filter f l)).
Proof.
  induction l as [| x l IH]; cbn; [trivial |].
  intros Hnd. apply List.NoDup_cons_iff in Hnd as [Hnotin Hnd].
  destruct (f x); cbn; [| apply IH; exact Hnd].
  apply List.NoDup_cons_iff. split; [| apply IH; exact Hnd].
  intros Hin. apply Hnotin.
  apply in_map_iff in Hin as (y & Hy & Hin).
  apply filter_In in Hin as [Hin _].
  apply in_map_iff. exists y. split; assumption.
Qed.

(** One statement keeps [UNIQUE (email)] on [students]. *)
Lemma execute_unique_emails q sq sq' t t' rows :
  execute q sq t = (sq', Ok (t', rows)) → unique_emails t → unique_emails t'.
Proof.
  unfold unique_emails.
  destruct q; cbn; intros Hex Hu;
    repeat match type of Hex with
           | context [if ?b then _ else _] => destruct b eqn:?
           end;
    inversion Hex; subst; clear Hex; cbn; try exact Hu.
  - (* InsertStudent *)
    rewrite List.map_app. cbn.
    apply List.NoDup_app;
      [exact Hu | constructor; [intros [] | constructor] |].
    intros x Hx [<- | []].
    apply in_map_iff in Hx as (y & Hy & Hin).
    assert (existsb (λ x, String.eqb (s_email x) email) (students t) = true)
      as Habs; [| congruence].
    apply existsb_exists. exists y. split; [exact Hin |].
    apply String.eqb_eq. exact Hy.
  - (* DeleteStudent *)
    apply NoDup_map_filter. exact Hu.
Qed.

(** A failed statement discards everything the transaction had done. *)
Lemma execute_query_raise q fetch conn e conn' :
  execute_query q fetch conn = (Raise e, conn') →
  working conn' = committed conn ∧ committed conn' = committed conn.
Proof.
  unfold execute_query.
  destruct (execute q (seqs conn) (working conn)) as [sq [[t rows] | e']].
  - destruct fetch; [destruct (returns_rows q) |]; intros [= <-] || intros [=];
      subst; split; reflexivity.
  - intros [= <- <-]. split; reflexivity.
Qed.

(** With [fetch=True] nothing is ever committed. *)
Lemma execute_query_fetch_no_commit q conn :
  committed (snd (execute_query q true conn)) = committed conn.
Proof.
  unfold execute_query.
  destruct (execute q (seqs conn) (working conn)) as [sq [[t rows] | e']];
    [destruct (returns_rows q) |]; reflexivity.
Qed.

End Store.

Section Cascade.
Import Db.

Lemma filter_filter_neg {A} (f : A → bool) l :
  List.filter f (List.filter (λ x, negb (f x)) l) = [].
Proof.
  induction l as [| x l IH]; [reflexivity |]. cbn.
  destruct (f x) eqn:Hf; cbn; [exact IH | rewrite Hf; exact IH].
Qed.

Lemma select_student_courses sid conn :
  get_student_courses sid conn
  = (Ok (flat_map
           (λ e, List.map course_public
                   (List.filter (λ c, c_id c =? e_course_id e)
                      (courses (working conn))))
           (List.filter (λ e, e_student_id e =? sid)
              (enrollments (working conn)))), conn).
Proof. destruct conn. reflexivity. Qed.

Lemma select_course_students cid conn :
  get_course_students cid conn
  = (Ok (flat_map
           (λ e, List.map student_public
                   (List.filter (λ s, s_id s =? e_student_id e)
                      (students (working conn))))
           (List.filter (λ e, e_course_id e =? cid)
              (enrollments (working conn)))), conn).
Proof. destruct conn. reflexivity. Qed.

Lemma course_public_id c : course_public c !! "id" = Some (JNum (c_id c)).
Proof. unfold course_public. apply lookup_insert_eq. Qed.

Lemma student_public_id s : student_public s !! "id" = Some (JNum (s_id s)).
Proof. unfold student_public. apply lookup_insert_eq. Qed.

Lemma delete_course_commits cid conn :
  delete_course cid conn
  = (Ok true, {| committed := without_course cid (working conn);
                 working := without_course cid (working conn);
                 seqs := seqs conn |}).
Proof. reflexivity. Qed.

Lemma delete_student_commits sid conn :
  execute_query (DeleteStudent sid) false conn
  = (Ok None, {| committed := without_student sid (working conn);
                 working := without_student sid (working conn);
                 seqs := seqs conn |}).
Proof. reflexivity. Qed.

Lemma no_course_rows cid sid t sq :
  let conn' := {| committed := without_course cid t;
                  working := without_course cid t; seqs := sq |} in
  (∀ e, In e (enrollments (working conn')) → e_course_id e ≠ cid)
  ∧ (∃ rows, get_student_courses sid conn' = (Ok rows, conn')
             ∧ ∀ r, In r rows → r !! "id" ≠ Some (JNum cid))
  ∧ get_course_students cid conn' = (Ok [], conn').
Proof.
  cbn zeta. split; [| split].
  - cbn. intros e He. apply filter_In in He as [_ Hne].
    apply negb_true_iff, Z.eqb_neq in Hne. exact Hne.
  - eexists. split; [apply select_student_courses |].
    cbn. intros r Hr.
    apply in_flat_map in Hr as (e & _ & Hr).
    apply in_map_iff in Hr as (c & <- & Hc).
    apply filter_In in Hc as [Hc _]. apply filter_In in Hc as [_ Hne].
    apply negb_true_iff, Z.eqb_neq in Hne.
    rewrite course_public_id. congruence.
  - rewrite select_course_students. cbn.
    rewrite (filter_filter_neg (λ e, e_course_id e =? cid)). reflexivity.
Qed.

Lemma no_student_rows sid cid t sq :
  let conn' := {| committed := without_student sid t;
                  working := without_student sid t; seqs := sq |} in
  (∀ e, In e (enrollments (working conn')) → e_student_id e ≠ sid)
  ∧ get_student_courses sid conn' = (Ok [], conn')
  ∧ (∃ rows, get_course_students cid conn' = (Ok rows, conn')
             ∧ ∀ r, In r rows → r !! "id" ≠ Some (JNum sid)).
Proof.
  cbn zeta. split; [| split].
  - cbn. intros e He. apply filter_In in He as [_ Hne].
    apply negb_true_iff, Z.eqb_neq in Hne. exact Hne.
  - rewrite select_student_courses. cbn.
    rewrite (filter_filter_neg (λ e, e_student_id e =? sid)). reflexivity.
  - eexists. split; [apply select_course_students |].
    cbn. intros r Hr.
    apply in_flat_map in Hr as (e & _ & Hr).
    apply in_map_iff in Hr as (s & <- & Hs).
    apply filter_In in Hs as [Hs _]. apply filter_In in Hs as [_ Hne].
    apply negb_true_iff, Z.eqb_neq in Hne.
    rewrite student_public_id. congruence.
Qed.

(** C8.  On a connection whose table sets satisfy the foreign keys of
    [enrollments], every statement run through [execute_query], committed
    or not, failed or not, leaves table sets that satisfy them.  After
    [delete_course] no enrollment row names the course, the courses of any
    student contain no row with its id, and its list of students is empty.
    The same holds, with the roles exchanged, after the deletion of a
    student row. *)
Theorem enrollments_reference_existing_rows (conn : Connection) :
  fk_ok (committed conn) → fk_ok (working conn) →
  (∀ q fetch,
     fk_ok (committed (snd (execute_query q fetch conn)))
     ∧ fk_ok (working (snd (execute_query q fetch conn))))
  ∧ (∀ cid, ∃ conn',
       delete_course cid conn = (Ok true, conn')
       ∧ (∀ e, In e (enrollments (working conn')) → e_course_id e ≠ cid)
       ∧ (∀ sid, ∃ rows,
            get_student_courses sid conn' = (Ok rows, conn')
            ∧ ∀ r, In r rows → r !! "id" ≠ Some (JNum cid))
       ∧ get_course_students cid conn' = (Ok [], conn'))
  ∧ (∀ sid, ∃ conn',
       execute_query (DeleteStudent sid) false conn = (Ok None, conn')
       ∧ (∀ e, In e (enrollments (working conn')) → e_student_id e ≠ sid)
       ∧ get_student_courses sid conn' = (Ok [], conn')
       ∧ (∀ cid, ∃ rows,
            get_course_students cid conn' = (Ok rows, conn')
            ∧ ∀ r, In r rows → r !! "id" ≠ Some (JNum sid))).
Proof.
  intros Hc Hw. split; [| split].
  - intros q fetch. apply execute_query_fk_ok; assumption.
  - intros cid. eexists. split; [apply delete_course_commits |].
    split; [| split].
    + apply (no_course_rows cid 0 (working conn) (seqs conn)).
    + intros sid. apply (no_course_rows cid sid (working conn) (seqs conn)).
    + apply (no_course_rows cid 0 (working conn) (seqs conn)).
  - intros sid. eexists. split; [apply delete_student_commits |].
    split; [| split].
    + apply (no_student_rows sid 0 (working conn) (seqs conn)).
    + apply (no_student_rows sid 0 (working conn) (seqs conn)).
    + intros cid. apply (no_student_rows sid cid (working conn) (seqs conn)).
Qed.

End Cascade.

(** ** Enrollment and signup *)

Section Handlers.
Import Db.

Lemma existsb_filter_nil {A} (f : A → bool) l :
  existsb f l = false → List.filter f l = [].
Proof.
  induction l as [| x l IH]; [reflexivity |]. cbn.
  destruct (f x); [discriminate |]. exact IH.
Qed.

Lemma first_row_map {A} (g : A → row) (f : A → bool) l :
  (∀ x, g x ≠ ∅) →
  dict_truthy (first_row (Some (List.map g (List.filter f l))))
  = existsb f l.
Proof.
  intros Hg. induction l as [| x l IH]; [reflexivity |]. cbn.
  destruct (f x); cbn; [| exact IH].
  rewrite bool_decide_eq_false_2 by apply Hg. reflexivity.
Qed.

Lemma get_course_by_id_found cid conn :
  ∃ r, get_course_by_id cid conn = (Ok r, conn)
       ∧ dict_truthy r = has_course (working conn) cid.
Proof.
  destruct conn as [ct wk sq]. eexists. split; [reflexivity |].
  apply first_row_map. intros c. apply insert_non_empty.
Qed.


(** A repeated enrollment, whenever it comes: the pair is in the table
    and the course is still there. *)
Lemma enroll_again (enrollment : App.EnrollmentCreate) current_user conn :
  App.type_is current_user "admin" = true →
  has_course (working conn) (App.enrollment_course_id enrollment) = true →
  existsb (is_pair (App.enrollment_student_id enrollment)
             (App.enrollment_course_id enrollment))
    (enrollments (working conn)) = true →
  App.enroll_student enrollment current_user conn
  = (Ok App.already_enrolled, after_conflict conn).
Proof.
  intros Hadmin Hcourse Hpair.
  destruct (get_course_by_id_found (App.enrollment_course_id enrollment) conn)
    as (r & Hget & Htruthy).
  unfold App.enroll_student, App.reraise_as. rewrite Hadmin. cbn.
  unfold mbind, M_bind, bind. rewrite Hget, Htruthy, Hcourse. cbn.
  unfold enroll_student, mbind, M_bind, bind, execute_query. cbn.
  rewrite Hpair. cbn. reflexivity.
Qed.

(** What a first, successful enrollment leaves behind. *)
Lemma enroll_first (enrollment : App.EnrollmentCreate) current_user conn
    r conn1 :
  App.enroll_student enrollment current_user conn = (Ok (App.enrolled r), conn1) →
  App.type_is current_user "admin" = true
  ∧ has_course (working conn1) (App.enrollment_course_id enrollment) = true
  ∧ existsb (is_pair (App.enrollment_student_id enrollment)
               (App.enrollment_course_id enrollment))
      (enrollments (working conn1)) = true
  ∧ pair_count (working conn1) (App.enrollment_student_id enrollment)
      (App.enrollment_course_id enrollment) = 1%nat.
Proof.
  destruct enrollment as [sid cid]. cbn.
  destruct (get_course_by_id_found cid conn) as (c & Hget & Htruthy).
  unfold App.enroll_student, App.reraise_as.
  destruct (App.type_is current_user "admin"); cbn; [| discriminate].
  unfold mbind, M_bind, bind. rewrite Hget, Htruthy.
  destruct (has_course (working conn) cid) eqn:Hcourse; cbn; [| discriminate].
  unfold enroll_student, mbind, M_bind, bind, execute_query. cbn.
  destruct (existsb (is_pair sid cid) (enrollments (working conn))) eqn:Hpair;
    cbn; [discriminate |].
  destruct (has_student (working conn) sid) eqn:Hstudent; cbn;
    [| discriminate].
  rewrite Hcourse. cbn.
  rewrite bool_decide_eq_false_2 by apply insert_non_empty. cbn.
  unfold App.getitem, enrollment_row. rewrite lookup_insert_eq. cbn.
  intros [= _ <-]. cbn. unfold pair_count. cbn.
  split; [reflexivity |]. split; [exact Hcourse |].
  rewrite existsb_app, List.filter_app, (existsb_filter_nil _ _ Hpair).
  cbn. unfold is_pair. cbn. rewrite !Z.eqb_refl. cbn.
  split; [apply orb_true_r | reflexivity].
Qed.

(** C5.  When [POST /api/enrollments] has answered "Student enrolled
    successfully" for a pair, the same request again answers 200 with
    "Student already enrolled in this course", leaves both table sets as
    they were, and the store holds exactly one enrollment row for the
    pair. *)
Theorem enroll_twice (enrollment : App.EnrollmentCreate) current_user
    conn r conn1 :
  App.enroll_student enrollment current_user conn = (Ok (App.enrolled r), conn1) →
  ∃ conn2,
    App.enroll_student enrollment current_user conn1
    = (Ok App.already_enrolled, conn2)
    ∧ App.status_of (fst (App.enroll_student enrollment current_user conn1))
      = 200
    ∧ working conn2 = working conn1
    ∧ committed conn2 = committed conn1
    ∧ pair_count (working conn2) (App.enrollment_student_id enrollment)
        (App.enrollment_course_id enrollment) = 1%nat.
Proof.
  intros Hfirst.
  destruct (enroll_first _ _ _ _ _ Hfirst)
    as (Hadmin & Hcourse & Hpair & Hcount).
  exists (after_conflict conn1).
  rewrite (enroll_again _ _ _ Hadmin Hcourse Hpair).
  repeat split. exact Hcount.
Qed.


End Handlers.

Section Signup.
Import Db.
Context `{!JWS, !Passlib}.
Variable config : Config.


End Signup.

(** ** Concrete runs *)

(** C3: the code at the failing input.  A token of type ["guest"] for
    subject 7, signed with the service's key, asks for the courses of
    student 1 and gets them. *)
Theorem guest_reads_student_courses :
  @AuthManager.verify_token sim_jws test_config 50 Demo.guest_token
  = Some (AuthManager.to_encode test_config 0 0 Demo.guest "guest")
  ∧ @App.dispatch sim_jws test_config 50 (Demo.bearer Demo.guest_token)
      (App.GET_students_courses 1) Demo.with_enrollment
    = (Ok (App.JObject
             [("courses", App.JRows [Db.course_public Demo.course1])]),
       Demo.with_enrollment).
Proof. split; vm_compute; reflexivity. Qed.

(** What the handler of [GET /api/students/{id}/courses] does for the
    two roles the service issues. *)
Lemma student_courses_by_role student_id (current_user : claims) s n
    (conn : Db.Connection) :
  current_user !! "sub" = Some (JStr s) → Py.int s = Some n →
  (current_user !! "type" = Some (JStr "admin") →
   ∃ rows, App.get_student_courses student_id current_user conn
           = (Ok (App.JObject [("courses", App.JRows rows)]), conn))
  ∧ (current_user !! "type" = Some (JStr "student") → n = student_id →
     ∃ rows, App.get_student_courses student_id current_user conn
             = (Ok (App.JObject [("courses", App.JRows rows)]), conn))
  ∧ (current_user !! "type" = Some (JStr "student") → n ≠ student_id →
     App.get_student_courses student_id current_user conn
     = (Raise (HTTPException 403 "Access denied"), conn)).
Proof.
  intros Hsub Hint. split; [| split].
  - intros Hty.
    destruct (get_student_courses_granted student_id current_user conn)
      as (rows & _ & Hg); [rewrite Hty; discriminate |].
    exists rows. exact Hg.
  - intros Hty ->.
    destruct (get_student_courses_rows student_id conn) as [rows Hrows].
    exists rows.
    unfold App.get_student_courses, App.reraise_as, App.other_student,
      App.type_is.
    rewrite bool_decide_eq_true_2 by exact Hty.
    unfold mbind, Db.M_bind, Db.bind, Db.lift, App.getitem.
    rewrite Hsub. cbn. unfold App.int_of. cbn. rewrite Hint. cbn.
    rewrite Z.eqb_refl. cbn. unfold Db.bind. rewrite Hrows. reflexivity.
  - intros Hty Hne.
    unfold App.get_student_courses, App.reraise_as, App.other_student,
      App.type_is.
    rewrite bool_decide_eq_true_2 by exact Hty.
    unfold mbind, Db.M_bind, Db.bind, Db.lift, App.getitem.
    rewrite Hsub. cbn. unfold App.int_of. cbn. rewrite Hint. cbn.
    apply Z.eqb_neq in Hne. rewrite Hne. reflexivity.
Qed.

(** C2: the code at the failing input.  [create_student] returns the new
    row and a read on the same connection finds it; a later
    [enroll_student] for ids that do not exist violates a foreign key, the
    [except] branch rolls the transaction back, and the student row is
    gone: the insert had been fetched but never committed. *)
Theorem created_student_lost_by_later_failure :
  ∃ conn1 conn2,
    Db.create_student "a@x.com" "h1" None Demo.seeded
    = (Ok (Some (Db.student_public
                   {| Db.s_id := 1; Db.s_email := "a@x.com";
                      Db.s_password_hash := "h1"; Db.s_name := None |})),
       conn1)
    ∧ Db.email_count (Db.working conn1) "a@x.com" = 1%nat
    ∧ Db.email_count (Db.committed conn1) "a@x.com" = 0%nat
    ∧ Db.enroll_student 999 1 conn1
      = (Raise (DatabaseError
                  (ForeignKeyViolation "enrollments_student_id_fkey")),
         conn2)
    ∧ Db.get_student_by_email "a@x.com" conn2 = (Ok None, conn2)
    ∧ Db.email_count (Db.working conn2) "a@x.com" = 0%nat.
Proof.
  eexists. eexists.
  split; [vm_compute; reflexivity |].
  split; [reflexivity |]. split; [reflexivity |].
  split; [vm_compute; reflexivity |].
  split; vm_compute; reflexivity.
Qed.

(** The same over HTTP: a signup answered 200, a course created, then an
    enrollment of an unknown student answered 500; the student can no
    longer log in. *)
Example signup_lost_over_http :
  let signup := {| App.signup_email := "a@x.com";
                   App.signup_password := "secret1";
                   App.signup_name := None |} in
  let admin := AuthManager.to_encode test_config 0 0
                 (<["sub" := JStr "1"]> ∅) "admin" in
  let r1 := @App.student_signup sim_jws sim_passlib test_config "salt" 0 0
              signup Demo.seeded in
  let r2 := App.create_course
              {| App.course_title := "T"; App.course_description := "D" |}
              admin (snd r1) in
  let r3 := App.enroll_student
              {| App.enrollment_student_id := 999;
                 App.enrollment_course_id := 1 |} admin (snd r2) in
  let r4 := @App.student_login sim_jws sim_passlib test_config 0 0
              {| App.login_email := "a@x.com";
                 App.login_password := "secret1" |} (snd r3) in
  App.status_of (fst r1) = 200 ∧ App.status_of (fst r2) = 200
  ∧ fst r3 = Raise (HTTPException 500 "Failed to enroll student")
  ∧ fst r4 = Raise (HTTPException 401 "Invalid credentials").
Proof. vm_compute. repeat split; reflexivity. Qed.

(** Any failure after an uncommitted write returns the transaction to the
    last commit. *)
Lemma fetched_write_is_not_committed q conn q' fetch e conn2 :
  Db.execute_query q' fetch (snd (Db.execute_query q true conn))
  = (Raise e, conn2) →
  Db.working conn2 = Db.committed conn.
Proof.
  intros Hfail.
  apply execute_query_raise in Hfail as [-> _].
  apply execute_query_fetch_no_commit.
Qed.

(** ** The theorems at concrete inputs *)

Section Witnesses.
Import Db Demo.

Lemma test_config_init : Config_init (λ _, None) "test" = Ok test_config.
Proof. reflexivity. Qed.

Lemma verify_issued_token_witness :
  ∃ token,
    @AuthManager.create_access_token sim_jws test_config 1000 1000
      Demo.student7 "student" = Ok token
    ∧ (∀ now, now ≤ 1000 + 24 * 3600 →
         ∃ payload,
           @AuthManager.verify_token sim_jws test_config now token
           = Some payload
           ∧ payload !! "sub" = Some (JStr "7")
           ∧ payload !! "type" = Some (JStr "student"))
    ∧ (∀ now, 1000 + 24 * 3600 < now →
         @AuthManager.verify_token sim_jws test_config now token = None).
Proof.
  apply (@verify_issued_token sim_jws (λ _, None) "test" test_config
           1000 1000 Demo.student7 "7" "student");
    reflexivity.
Defined.

Lemma issued_expiry_witness :
  ∃ token payload,
    @AuthManager.create_access_token sim_jws test_config 1000 1000
      Demo.student7 "student" = Ok token
    ∧ @jws_verify sim_jws token (jwt_secret test_config)
        [jwt_algorithm test_config] = Ok payload
    ∧ payload !! "exp" = Some (JNum (1000 + 86400))
    ∧ payload !! "iat" = Some (JNum 1000)
    ∧ (1000 = 1000 → payload !! "exp" = Some (JNum (1000 + 86400))).
Proof.
  apply (@issued_expiry sim_jws (λ _, None) "test" test_config
           1000 1000 Demo.student7 "student").
  reflexivity.
Defined.

(** C4, as stated, fails when the second changes between the two clock
    readings: the expiry was computed from second 0, the token was stamped
    in second 1, so [exp] is 86400 while [iat + 24h] is 86401. *)
Lemma issued_expiry_counterexample :
  ∃ token payload,
    @AuthManager.create_access_token sim_jws test_config 0 1
      Demo.student7 "student" = Ok token
    ∧ @jws_verify sim_jws token (jwt_secret test_config)
        [jwt_algorithm test_config] = Ok payload
    ∧ payload !! "exp" = Some (JNum 86400)
    ∧ payload !! "iat" = Some (JNum 1)
    ∧ payload !! "exp" ≠ Some (JNum (1 + 24 * 3600)).
Proof.
  eexists. eexists. split; [reflexivity |].
  split; [vm_compute; reflexivity |].
  split; [reflexivity |]. split; [reflexivity |].
  vm_compute. discriminate.
Qed.

Lemma enroll_twice_witness :
  App.enroll_student pair11 admin1 Demo.with_course
  = (Ok (App.enrolled (enrollment_row {| e_id := 1; e_student_id := 1;
                                     e_course_id := 1 |})),
     Demo.with_enrollment)
  ∧ ∃ conn2,
      App.enroll_student pair11 admin1 Demo.with_enrollment
      = (Ok App.already_enrolled, conn2)
      ∧ App.status_of
          (fst (App.enroll_student pair11 admin1 Demo.with_enrollment)) = 200
      ∧ working conn2 = working Demo.with_enrollment
      ∧ committed conn2 = committed Demo.with_enrollment
      ∧ pair_count (working conn2) (App.enrollment_student_id pair11)
          (App.enrollment_course_id pair11) = 1%nat.
Proof.
  assert (Hfirst :
    App.enroll_student pair11 admin1 Demo.with_course
    = (Ok (App.enrolled (enrollment_row {| e_id := 1; e_student_id := 1;
                                       e_course_id := 1 |})),
       Demo.with_enrollment)) by (vm_compute; reflexivity).
  split; [exact Hfirst |].
  exact (enroll_twice pair11 admin1 Demo.with_course _ _ Hfirst).
Defined.

Lemma unauthenticated_is_401_witness :
  (∃ detail,
     @App.dispatch sim_jws test_config 50 None App.GET_students Demo.seeded
     = (Raise (HTTPException 401 detail), Demo.seeded))
  ∧ (∃ detail,
       @App.dispatch sim_jws test_config 50 (Some "Token abc")
         (App.POST_enrollments pair11) Demo.with_course
       = (Raise (HTTPException 401 detail), Demo.with_course))
  ∧ (∃ detail,
       @App.dispatch sim_jws test_config 50 (Some "Bearer not.a.token")
         (App.DELETE_courses 1) Demo.with_enrollment
       = (Raise (HTTPException 401 detail), Demo.with_enrollment)).
Proof.
  split; [| split].
  - apply (@unauthenticated_is_401 sim_jws test_config 50 None).
    left. reflexivity.
  - apply (@unauthenticated_is_401 sim_jws test_config 50 (Some "Token abc")).
    right. exists "Token abc". split; [reflexivity |].
    left. intros [_ Hscheme]. vm_compute in Hscheme. discriminate Hscheme.
  - apply (@unauthenticated_is_401 sim_jws test_config 50
             (Some "Bearer not.a.token")).
    right. exists "Bearer not.a.token". split; [reflexivity |].
    right. vm_compute. reflexivity.
Defined.

Lemma fk_ok_demo :
  fk_ok (committed Demo.with_enrollment) ∧ fk_ok (working Demo.with_enrollment).
Proof.
  split; intros e He; vm_compute in He.
  - destruct He.
  - destruct He as [<- | []]. split; reflexivity.
Defined.

Lemma enrollments_reference_existing_rows_witness :
  (∀ q fetch,
     fk_ok (committed (snd (execute_query q fetch Demo.with_enrollment)))
     ∧ fk_ok (working (snd (execute_query q fetch Demo.with_enrollment))))
  ∧ (∀ cid, ∃ conn',
       delete_course cid Demo.with_enrollment = (Ok true, conn')
       ∧ (∀ e, In e (enrollments (working conn')) → e_course_id e ≠ cid)
       ∧ (∀ sid, ∃ rows,
            get_student_courses sid conn' = (Ok rows, conn')
            ∧ ∀ r, In r rows → r !! "id" ≠ Some (JNum cid))
       ∧ get_course_students cid conn' = (Ok [], conn'))
  ∧ (∀ sid, ∃ conn',
       execute_query (DeleteStudent sid) false Demo.with_enrollment
       = (Ok None, conn')
       ∧ (∀ e, In e (enrollments (working conn')) → e_student_id e ≠ sid)
       ∧ get_student_courses sid conn' = (Ok [], conn')
       ∧ (∀ cid, ∃ rows,
            get_course_students cid conn' = (Ok rows, conn')
            ∧ ∀ r, In r rows → r !! "id" ≠ Some (JNum sid))).
Proof.
  exact (enrollments_reference_existing_rows Demo.with_enrollment
           (proj1 fk_ok_demo) (proj2 fk_ok_demo)).
Defined.





End Witnesses.

(** * Further properties of the code *)

(** ** The store under every statement *)

Section Invariants.
Import Db.

Lemma NoDup_map_snoc {A} (g : A → Z) l x bound :
  List.NoDup (List.map g l) →
  (∀ y, In y l → g y < bound) → g x = bound →
  List.NoDup (List.map g (l ++ [x])).
Proof.
  intros Hnd Hlt Hx. rewrite List.map_app. cbn.
  apply List.NoDup_app; [exact Hnd | constructor; [intros [] | constructor] |].
  intros a Ha [<- | []].
  apply in_map_iff in Ha as (y & Hy & Hin).
  specialize (Hlt y Hin). lia.
Qed.

Lemma below_snoc {A} (g : A → Z) l x bound :
  (∀ y, In y l → g y < bound) → g x = bound →
  ∀ y, In y (l ++ [x]) → g y < bound + 1.
Proof.
  intros Hlt Hx y Hy. apply in_app_iff in Hy as [Hy | [<- | []]].
  - specialize (Hlt y Hy). lia.
  - lia.
Qed.

Lemma below_mono {A} (g : A → Z) (l : list A) b b' :
  b ≤ b' → (∀ y, In y l → g y < b) → ∀ y, In y l → g y < b'.
Proof. intros Hle Hlt y Hy. specialize (Hlt y Hy). lia. Qed.

Lemma below_filter {A} (g : A → Z) (f : A → bool) l b :
  (∀ y, In y l → g y < b) → ∀ y, In y (List.filter f l) → g y < b.
Proof. intros Hlt y Hy. apply filter_In in Hy as [Hy _]. auto. Qed.

Lemma map_id_set_course ti de cid cs :
  List.map c_id (List.map (set_course ti de cid) cs) = List.map c_id cs.
Proof.
  induction cs as [| x cs IH]; [reflexivity |]. cbn. rewrite IH. f_equal.
  unfold set_course. destruct (c_id x =? cid); reflexivity.
Qed.

Lemma below_set_course ti de cid cs b :
  (∀ y, In y cs → c_id y < b) →
  ∀ y, In y (List.map (set_course ti de cid) cs) → c_id y < b.
Proof.
  intros Hlt y Hy. apply in_map_iff in Hy as (x & <- & Hx).
  specialize (Hlt x Hx). unfold set_course.
  destruct (c_id x =? cid); exact Hlt.
Qed.

(** Sequences only move forward, whatever the statement does. *)
Lemma execute_seq_le q sq t : seq_le sq (fst (execute q sq t)).
Proof.
  unfold seq_le.
  destruct q; cbn;
    repeat match goal with
           | |- context [if ?b then _ else _] => destruct b
           end; cbn; lia.
Qed.

Lemma keys_ok_seq_le sq sq' t : seq_le sq sq' → keys_ok sq t → keys_ok sq' t.
Proof.
  intros (H1 & H2 & H3 & H4) ((Ns & Bs) & (Na & Ba) & (Nc & Bc) & (Ne & Be)).
  repeat split; try assumption; eapply below_mono; eassumption.
Qed.

Lemma execute_keys_ok q sq sq' t t' rows :
  execute q sq t = (sq', Ok (t', rows)) → keys_ok sq t → keys_ok sq' t'.
Proof.
  intros Hex ((Ns & Bs) & (Na & Ba) & (Nc & Bc) & (Ne & Be)).
  unfold keys_ok.
  destruct q; cbn in Hex;
    repeat match type of Hex with
           | context [if ?b then _ else _] => destruct b eqn:?
           end;
    inversion Hex; subst; clear Hex; cbn;
    repeat split;
    try assumption;
    try (eapply NoDup_map_snoc; [eassumption | eassumption | reflexivity]);
    try (eapply below_snoc; [eassumption | reflexivity]);
    try (apply NoDup_map_filter; assumption);
    try (apply below_filter; assumption);
    try (eapply below_mono; [| eassumption]; lia);
    try (rewrite map_id_set_course; assumption);
    try (apply below_set_course; assumption).
Qed.

Lemma filter_snoc_count {A} (f : A → bool) l x :
  length (List.filter f (l ++ [x]))
  = (length (List.filter f l) + if f x then 1 else 0)%nat.
Proof.
  rewrite List.filter_app, length_app. cbn. destruct (f x); reflexivity.
Qed.

Lemma filter_filter_le {A} (f g : A → bool) l :
  (length (List.filter f (List.filter g l)) ≤ length (List.filter f l))%nat.
Proof.
  induction l as [| x l IH]; cbn; [lia |].
  destruct (g x), (f x) eqn:Hf; cbn; rewrite ?Hf; cbn; lia.
Qed.

Lemma is_pair_inj sid cid sid' cid' e :
  is_pair sid cid e = true → is_pair sid' cid' e = true →
  sid = sid' ∧ cid = cid'.
Proof.
  unfold is_pair. intros H1 H2.
  apply andb_true_iff in H1 as [H1 H1'], H2 as [H2 H2'].
  apply Z.eqb_eq in H1, H1', H2, H2'. split; congruence.
Qed.

Lemma execute_unique_pairs q sq sq' t t' rows :
  execute q sq t = (sq', Ok (t', rows)) → unique_pairs t → unique_pairs t'.
Proof.
  unfold unique_pairs, pair_count.
  destruct q; cbn; intros Hex Hu;
    repeat match type of Hex with
           | context [if ?b then _ else _] => destruct b eqn:?
           end;
    inversion Hex; subst; clear Hex; cbn; try exact Hu;
    intros sid cid; specialize (Hu sid cid);
    try (etransitivity; [apply filter_filter_le | exact Hu]).
  (* InsertEnrollment, no row for the pair before *)
  rewrite filter_snoc_count.
  destruct (is_pair sid cid _) eqn:Hp; [| lia].
  unfold is_pair in Hp. cbn in Hp.
  apply andb_true_iff in Hp as [H1 H2]. apply Z.eqb_eq in H1, H2. subst.
  match goal with
  | H : existsb _ _ = false |- _ =>
      rewrite (existsb_filter_nil _ _ H)
  end. cbn. lia.
Qed.

(** The table sets [execute_query] leaves are each either the committed
    set it found or the result of the statement; so whatever one
    statement preserves, [execute_query] preserves in both. *)
Lemma execute_query_preserves (P : Tables → Prop) q fetch conn :
  (∀ sq t' rows,
     execute q (seqs conn) (working conn) = (sq, Ok (t', rows)) → P t') →
  P (committed conn) →
  P (committed (snd (execute_query q fetch conn)))
  ∧ P (working (snd (execute_query q fetch conn))).
Proof.
  intros Hstep Hc.
  destruct (execute_query_tables q fetch conn)
    as [[-> | (sq & rows & H1)] [-> | (sq' & rows' & H2)]];
    split; try assumption; eapply Hstep; eassumption.
Qed.

Lemma execute_query_seqs q fetch conn :
  seqs (snd (execute_query q fetch conn))
  = fst (execute q (seqs conn) (working conn)).
Proof.
  unfold execute_query.
  destruct (execute q (seqs conn) (working conn)) as [sq [[t rows] | e]];
    [destruct fetch; [destruct (returns_rows q) |] |]; reflexivity.
Qed.

(** X1.  On a connection whose two table sets satisfy the [UNIQUE]
    constraints on [students.email] and on
    [enrollments(student_id, course_id)], every statement sent through
    [execute_query] leaves two table sets that satisfy them, whether it
    committed, only fetched, or failed and rolled back. *)
Theorem unique_constraints_kept q fetch (conn : Connection) :
  unique_emails (committed conn) → unique_emails (working conn) →
  unique_pairs (committed conn) → unique_pairs (working conn) →
  let conn' := snd (execute_query q fetch conn) in
  unique_emails (committed conn') ∧ unique_emails (working conn')
  ∧ unique_pairs (committed conn') ∧ unique_pairs (working conn').
Proof.
  intros Hec Hew Hpc Hpw. cbn zeta.
  destruct (execute_query_preserves unique_emails q fetch conn) as [H1 H2];
    [intros sq t' rows Hex; eapply execute_unique_emails; eassumption
    | exact Hec |].
  destruct (execute_query_preserves unique_pairs q fetch conn) as [H3 H4];
    [intros sq t' rows Hex; eapply execute_unique_pairs; eassumption
    | exact Hpc |].
  split; [exact H1 |]. split; [exact H2 |]. split; [exact H3 | exact H4].
Qed.

(** X2.  Row ids are never reused.  If in both table sets the ids of each
    table are distinct and below the table's sequence, the same holds after
    any statement sent through [execute_query], and no sequence has gone
    back, even when the statement failed and was rolled back. *)
Theorem primary_keys_kept q fetch (conn : Connection) :
  keys_ok (seqs conn) (committed conn) → keys_ok (seqs conn) (working conn) →
  let conn' := snd (execute_query q fetch conn) in
  keys_ok (seqs conn') (committed conn')
  ∧ keys_ok (seqs conn') (working conn')
  ∧ seq_le (seqs conn) (seqs conn').
Proof.
  intros Hc Hw. cbn zeta. rewrite execute_query_seqs.
  pose proof (execute_seq_le q (seqs conn) (working conn)) as Hle.
  destruct (execute_query_preserves
              (keys_ok (fst (execute q (seqs conn) (working conn))))
              q fetch conn) as [H1 H2].
  - intros sq t' rows Hex. rewrite Hex. cbn.
    eapply execute_keys_ok; eassumption.
  - eapply keys_ok_seq_le; eassumption.
  - split; [exact H1 |]. split; [exact H2 | exact Hle].
Qed.

End Invariants.

(** ** Commit points, inserts and lookups *)

Section Transactions.
Import Db.

(** X3.  [delete_course], [unenroll_student] and [seed_admin] commit: the
    connection they leave has nothing pending, so everything the
    transaction had done before them is committed with them.  A statement
    that fails right after such a commit rolls back to exactly that state:
    nothing is lost. *)
Theorem commit_points (conn : Connection) :
  (∀ cid, committed (snd (delete_course cid conn))
          = working (snd (delete_course cid conn)))
  ∧ (∀ sid cid, committed (snd (unenroll_student sid cid conn))
                = working (snd (unenroll_student sid cid conn)))
  ∧ (∀ u h, committed (snd (seed_admin u h conn))
            = working (snd (seed_admin u h conn)))
  ∧ (∀ q r conn1,
       execute_query q false conn = (Ok r, conn1) →
       committed conn1 = working conn1
       ∧ ∀ q' fetch e conn2,
           execute_query q' fetch conn1 = (Raise e, conn2) →
           working conn2 = working conn1 ∧ committed conn2 = working conn1).
Proof.
  split; [reflexivity |]. split; [reflexivity |]. split.
  - intros u h. unfold seed_admin, execute_query. cbn.
    destruct (existsb _ _); reflexivity.
  - intros q r conn1 Hq.
    assert (Hc : committed conn1 = working conn1).
    { unfold execute_query in Hq.
      destruct (execute q (seqs conn) (working conn)) as [sq [[t rows] | e]];
        inversion Hq; reflexivity. }
    split; [exact Hc |].
    intros q' fetch e conn2 Hfail.
    apply execute_query_raise in Hfail as [-> ->]. rewrite Hc. split; reflexivity.
Qed.



Lemma admin_star_username a :
  admin_star a !! "username" = Some (JStr (a_username a)).
Proof.
  unfold admin_star. rewrite lookup_insert_ne by discriminate.
  apply lookup_insert_eq.
Qed.

Lemma first_row_filter_some {A} (g : A → row) (f : A → bool) l :
  existsb f l = true →
  ∃ x, In x l ∧ f x = true
       ∧ first_row (Some (List.map g (List.filter f l))) = Some (g x).
Proof.
  induction l as [| y l IH]; cbn; [discriminate |].
  destruct (f y) eqn:Hy; cbn.
  - intros _. exists y. auto.
  - intros Hex. destruct (IH Hex) as (x & Hin & Hfx & Hrow).
    exists x. auto.
Qed.

(** X5.  [seed_admin] never raises and never touches an admin that is
    there: when the username is taken the admins table is left as it is
    (the stored password hash is not replaced), otherwise one row with the
    given hash is added.  Either way a lookup of the username then finds a
    row, and seeding again changes no table. *)
Theorem seed_admin_idempotent (conn : Connection) u h h' :
  let conn1 := snd (seed_admin u h conn) in
  fst (seed_admin u h conn) = Ok tt
  ∧ (existsb (λ x, String.eqb (a_username x) u) (admins (working conn)) = true →
     working conn1 = working conn)
  ∧ (existsb (λ x, String.eqb (a_username x) u) (admins (working conn)) = false →
     admins (working conn1)
     = (admins (working conn)
        ++ [{| a_id := admins_id_seq (seqs conn); a_username := u;
               a_password_hash := h |}])%list)
  ∧ (∃ row, get_admin_by_username u conn1 = (Ok (Some row), conn1)
            ∧ row !! "username" = Some (JStr u))
  ∧ working (snd (seed_admin u h' conn1)) = working conn1.
Proof.
  cbn zeta.
  assert (Hafter :
    existsb (λ x, String.eqb (a_username x) u)
      (admins (working (snd (seed_admin u h conn)))) = true).
  { unfold seed_admin, execute_query. cbn.
    destruct (existsb _ (admins (working conn))) eqn:Hex; cbn;
      [exact Hex |].
    rewrite existsb_app. cbn. rewrite String.eqb_refl.
    apply orb_true_iff. right. reflexivity. }
  split; [| split; [| split; [| split]]].
  - unfold seed_admin. destruct (execute_query _ _ _). reflexivity.
  - intros Hex. unfold seed_admin, execute_query. cbn. rewrite Hex. reflexivity.
  - intros Hex. unfold seed_admin, execute_query. cbn. rewrite Hex. reflexivity.
  - destruct (first_row_filter_some admin_star
                (λ x, String.eqb (a_username x) u) _ Hafter)
      as (a & _ & Ha & Hrow).
    exists (admin_star a). split.
    + destruct (snd (seed_admin u h conn)) as [ct wk sq] eqn:Hc.
      unfold get_admin_by_username, mbind, M_bind, bind, execute_query.
      cbn in *. rewrite Hrow. reflexivity.
    + rewrite admin_star_username. apply String.eqb_eq in Ha. rewrite Ha.
      reflexivity.
  - revert Hafter. generalize (snd (seed_admin u h conn)). intros c Hex.
    unfold seed_admin, execute_query. cbn. rewrite Hex. reflexivity.
Qed.

End Transactions.

(** ** Role checks and existence checks of the handlers *)

Section Guards.
Import Db.

(** X6.  Every endpoint reserved to admins ([POST], [PUT], [DELETE
    /api/courses], [GET /api/students], [POST] and [DELETE
    /api/enrollments], [GET /api/courses/{id}/students]) answers a caller
    whose ["type"] is not ["admin"] with 403 "Admin access required"
    before it reads or writes the store: the connection is returned as it
    was. *)
Theorem non_admin_is_403 (e : App.endpoint) (current_user : claims)
    (conn : Connection) :
  (∀ sid, e ≠ App.GET_students_courses sid) →
  current_user !! "type" ≠ Some (JStr "admin") →
  App.handler e current_user conn
  = (Raise (HTTPException 403 "Admin access required"), conn).
Proof.
  intros Hne Hty.
  assert (Hadmin : App.type_is current_user "admin" = false)
    by (apply bool_decide_eq_false_2; exact Hty).
  destruct e; cbn;
    try (exfalso; eapply Hne; reflexivity);
    unfold App.create_course, App.update_course, App.delete_course,
      App.get_students, App.enroll_student, App.unenroll_student,
      App.get_course_students, App.reraise_as;
    rewrite Hadmin; reflexivity.
Qed.

(** X7.  For an admin, [PUT /api/courses/{id}], [DELETE /api/courses/{id}]
    and [POST /api/enrollments] on a course id that is not in the store
    answer 404 "Course not found" and leave the connection as it was; in
    particular no enrollment row is attempted for a missing course. *)
Theorem missing_course_is_404 (current_user : claims) (conn : Connection)
    cid sid (upd : App.CourseUpdate) :
  current_user !! "type" = Some (JStr "admin") →
  has_course (working conn) cid = false →
  App.update_course cid upd current_user conn
  = (Raise (HTTPException 404 "Course not found"), conn)
  ∧ App.delete_course cid current_user conn
    = (Raise (HTTPException 404 "Course not found"), conn)
  ∧ App.enroll_student
      {| App.enrollment_student_id := sid; App.enrollment_course_id := cid |}
      current_user conn
    = (Raise (HTTPException 404 "Course not found"), conn).
Proof.
  intros Hty Hno.
  assert (Hadmin : App.type_is current_user "admin" = true)
    by (apply bool_decide_eq_true_2; exact Hty).
  destruct (get_course_by_id_found cid conn) as (r & Hget & Htruthy).
  rewrite Hno in Htruthy.
  repeat split;
    unfold App.update_course, App.delete_course, App.enroll_student,
      App.reraise_as;
    rewrite Hadmin; cbn; unfold mbind, M_bind, bind;
    rewrite Hget, Htruthy; reflexivity.
Qed.


(** X9.  For an admin, [DELETE /api/enrollments/{student_id}/{course_id}]
    always answers 200 "Student unenrolled successfully", whether or not
    the pair was enrolled; afterwards no row for the pair is left, every
    other enrollment row is still there, students and courses are
    untouched, and the result is committed. *)
Theorem unenroll_always_succeeds (current_user : claims) (conn : Connection)
    sid cid :
  current_user !! "type" = Some (JStr "admin") →
  ∃ conn',
    App.unenroll_student sid cid current_user conn
    = (Ok (App.JObject
             [("message",
               App.JAtom (JStr "Student unenrolled successfully"))]),
       conn')
    ∧ pair_count (working conn') sid cid = 0%nat
    ∧ (∀ e, In e (enrollments (working conn')) ↔
            In e (enrollments (working conn)) ∧ is_pair sid cid e = false)
    ∧ students (working conn') = students (working conn)
    ∧ courses (working conn') = courses (working conn)
    ∧ committed conn' = working conn'.
Proof.
  intros Hty.
  assert (Hadmin : App.type_is current_user "admin" = true)
    by (apply bool_decide_eq_true_2; exact Hty).
  eexists. split.
  - unfold App.unenroll_student, App.reraise_as. rewrite Hadmin. cbn.
    reflexivity.
  - cbn. split; [| split; [| repeat split]].
    + unfold pair_count. cbn.
      rewrite (filter_filter_neg (is_pair sid cid)). reflexivity.
    + intros e. rewrite filter_In, negb_true_iff. reflexivity.
Qed.

End Guards.

(** ** Course handlers *)

Section Courses.
Import Db.

Lemma has_course_without cid t :
  has_course (without_course cid t) cid = false.
Proof.
  unfold has_course. cbn.
  induction (courses t) as [| c cs IH]; [reflexivity |]. cbn.
  destruct (c_id c =? cid) eqn:Hc; cbn; [exact IH | rewrite Hc; exact IH].
Qed.

(** X10.  For an admin, [DELETE /api/courses/{id}] on a course that is in
    the store answers 200; afterwards the course is not in the store, the
    courses with other ids are all still there, and the deletion (with its
    cascade) is committed. *)
Theorem delete_existing_course (current_user : claims) (conn : Connection)
    cid :
  current_user !! "type" = Some (JStr "admin") →
  has_course (working conn) cid = true →
  ∃ conn',
    App.delete_course cid current_user conn
    = (Ok (App.JObject
             [("message", App.JAtom (JStr "Course deleted successfully"))]),
       conn')
    ∧ has_course (working conn') cid = false
    ∧ (∀ c, In c (courses (working conn')) ↔
            In c (courses (working conn)) ∧ c_id c ≠ cid)
    ∧ pair_free conn' cid
    ∧ committed conn' = working conn'.
Proof.
  intros Hty Hcourse.
  assert (Hadmin : App.type_is current_user "admin" = true)
    by (apply bool_decide_eq_true_2; exact Hty).
  destruct (get_course_by_id_found cid conn) as (r & Hget & Htruthy).
  rewrite Hcourse in Htruthy.
  eexists. split.
  - unfold App.delete_course, App.reraise_as. rewrite Hadmin. cbn.
    unfold mbind, M_bind, bind. rewrite Hget, Htruthy. cbn.
    unfold bind. rewrite delete_course_commits. cbn. reflexivity.
  - cbn. split; [apply has_course_without |]. split; [| split].
    + intros c. rewrite filter_In, negb_true_iff, Z.eqb_neq. reflexivity.
    + unfold pair_free. cbn. intros e He.
      apply filter_In in He as [_ Hne].
      apply negb_true_iff, Z.eqb_neq in Hne. exact Hne.
    + reflexivity.
Qed.






End Courses.

(** ** Signup and login *)

Section Sessions.
Import Db.
Context `{!JWS, !Passlib}.
Variable config : Config.

Lemma first_row_find {A} (g : A → row) (f : A → bool) l :
  first_row (Some (List.map g (List.filter f l))) = g <$> List.find f l.
Proof.
  induction l as [| x l IH]; [reflexivity |]. cbn.
  destruct (f x); [reflexivity | exact IH].
Qed.

Lemma find_existsb {A} (f : A → bool) l :
  existsb f l = bool_decide (is_Some (List.find f l)).
Proof.
  induction l as [| x l IH]; [reflexivity |]. cbn.
  destruct (f x); [reflexivity | exact IH].
Qed.

Lemma get_student_by_email_find em conn :
  get_student_by_email em conn
  = (Ok (student_star <$> stored_student conn em), conn).
Proof.
  destruct conn as [ct wk sq].
  unfold get_student_by_email, mbind, M_bind, bind, execute_query,
    stored_student.
  cbn [execute seqs working committed returns_rows ret].
  rewrite first_row_find. reflexivity.
Qed.

Lemma get_admin_by_username_find un conn :
  get_admin_by_username un conn
  = (Ok (admin_star <$> stored_admin conn un), conn).
Proof.
  destruct conn as [ct wk sq].
  unfold get_admin_by_username, mbind, M_bind, bind, execute_query,
    stored_admin.
  cbn [execute seqs working committed returns_rows ret].
  rewrite first_row_find. reflexivity.
Qed.

Lemma student_star_fields s :
  student_star s !! "id" = Some (JNum (s_id s))
  ∧ student_star s !! "email" = Some (JStr (s_email s))
  ∧ student_star s !! "password_hash" = Some (JStr (s_password_hash s))
  ∧ student_star s !! "name" = Some (opt_str (s_name s)).
Proof.
  unfold student_star. split; [apply lookup_insert_eq |]. split; [| split].
  - rewrite lookup_insert_ne by discriminate. apply lookup_insert_eq.
  - do 2 rewrite lookup_insert_ne by discriminate. apply lookup_insert_eq.
  - do 3 rewrite lookup_insert_ne by discriminate. apply lookup_insert_eq.
Qed.


Lemma admin_star_fields a :
  admin_star a !! "id" = Some (JNum (a_id a))
  ∧ admin_star a !! "username" = Some (JStr (a_username a))
  ∧ admin_star a !! "password_hash" = Some (JStr (a_password_hash a)).
Proof.
  unfold admin_star. split; [apply lookup_insert_eq |]. split.
  - rewrite lookup_insert_ne by discriminate. apply lookup_insert_eq.
  - do 2 rewrite lookup_insert_ne by discriminate. apply lookup_insert_eq.
Qed.

Lemma truthy_star {A} (g : A → row) (o : option A) :
  (∀ x, g x ≠ ∅) →
  dict_truthy (g <$> o) = bool_decide (is_Some o).
Proof.
  intros Hg. destruct o as [x |]; cbn; [| reflexivity].
  rewrite bool_decide_eq_false_2 by apply Hg. reflexivity.
Qed.

(** What [student_login] does, by the row the lookup finds. *)
Lemma student_login_cases t_expire t_iat (credentials : App.StudentLogin)
    (conn : Connection) :
  App.student_login config t_expire t_iat credentials conn
  = match stored_student conn (App.login_email credentials) with
    | None => (Raise (HTTPException 401 "Invalid credentials"), conn)
    | Some s =>
        if App.check_password (App.login_password credentials)
             (JStr (s_password_hash s))
        then match AuthManager.create_access_token config t_expire t_iat
                     (App.student_data s) "student" with
             | Ok token =>
                 (Ok (App.student_session "Login successful" s token), conn)
             | Raise e => App.reraise_as 500 "Login failed" (raise e) conn
             end
        else (Raise (HTTPException 401 "Invalid credentials"), conn)
    end.
Proof.
  unfold App.student_login, App.reraise_as, mbind, M_bind, bind.
  rewrite get_student_by_email_find.
  destruct (stored_student conn (App.login_email credentials)) as [s |];
    [| reflexivity].
  rewrite (truthy_star student_star (Some s))
    by (intros x; apply insert_non_empty).
  destruct (student_star_fields s) as (Hid & Hem & Hph & Hnm).
  unfold lift, App.getitem. cbn [fmap option_fmap option_map].
  rewrite Hph, Hid, Hem, Hnm.
  rewrite bool_decide_eq_true_2 by (eexists; reflexivity).
  cbn [negb].
  destruct (App.check_password _ _); cbn [negb]; [| reflexivity].
  unfold App.student_data, App.str_of.
  destruct (AuthManager.create_access_token _ _ _ _ _) as [token | []];
    reflexivity.
Qed.

Lemma admin_login_cases t_expire t_iat (credentials : App.AdminLogin)
    (conn : Connection) :
  App.admin_login config t_expire t_iat credentials conn
  = match stored_admin conn (App.login_username credentials) with
    | None => (Raise (HTTPException 401 "Invalid credentials"), conn)
    | Some a =>
        if App.check_password (App.admin_password credentials)
             (JStr (a_password_hash a))
        then match AuthManager.create_access_token config t_expire t_iat
                     (App.admin_data a) "admin" with
             | Ok token => (Ok (App.admin_session a token), conn)
             | Raise e => App.reraise_as 500 "Login failed" (raise e) conn
             end
        else (Raise (HTTPException 401 "Invalid credentials"), conn)
    end.
Proof.
  unfold App.admin_login, App.reraise_as, mbind, M_bind, bind.
  rewrite get_admin_by_username_find.
  destruct (stored_admin conn (App.login_username credentials)) as [a |];
    [| reflexivity].
  rewrite (truthy_star admin_star (Some a))
    by (intros x; apply insert_non_empty).
  destruct (admin_star_fields a) as (Hid & Hun & Hph).
  unfold lift, App.getitem. cbn [fmap option_fmap option_map].
  rewrite Hph, Hid, Hun.
  rewrite bool_decide_eq_true_2 by (eexists; reflexivity).
  cbn [negb].
  destruct (App.check_password _ _); cbn [negb]; [| reflexivity].
  unfold App.admin_data, App.str_of.
  destruct (AuthManager.create_access_token _ _ _ _ _) as [token | []];
    reflexivity.
Qed.

Lemma check_password_true plain h :
  App.check_password plain (JStr h) = true ↔ ctx_verify plain h = Ok true.
Proof.
  unfold App.check_password, AuthManager.verify_password.
  destruct (ctx_verify plain h) as [[|] | e]; cbn; split;
    congruence.
Qed.



(** A token issued under the service's configuration for data with a
    string subject verifies until its expiry. *)
Lemma issued_payload getenv m t_expire t_iat (data : claims) sid user_type :
  Config_init getenv m = Ok config →
  data !! "sub" = Some (JStr sid) →
  data !! "nbf" = None → data !! "aud" = None →
  data !! "jti" = None → data !! "at_hash" = None →
  ∃ token,
    AuthManager.create_access_token config t_expire t_iat data user_type
    = Ok token
    ∧ ∀ now, now ≤ t_expire + 86400 →
        AuthManager.verify_token config now token
        = Some (AuthManager.to_encode config t_expire t_iat data user_type).
Proof.
  intros Hinit Hsub Hnbf Haud Hjti Hat.
  destruct (create_access_token_ok _ _ _ t_expire t_iat data user_type Hinit)
    as (token & Hcreate & Hverify).
  destruct (Config_init_jwt _ _ _ Hinit) as [_ Hhours].
  exists token. split; [exact Hcreate |]. intros now Hnow.
  unfold AuthManager.verify_token, Jose.decode. rewrite Hverify.
  rewrite (validate_issued _ _ _ _ sid) by assumption.
  rewrite Hhours.
  replace (t_expire + 24 * 3600 <? now) with false
    by (symmetry; apply Z.ltb_ge; lia).
  reflexivity.
Qed.

(** X13.  [POST /api/students/login] gives one and the same answer, 401
    "Invalid credentials", when no student has the email and when the
    password does not verify against the stored hash (the backend answers
    false or raises); in both cases the connection is left as it was. *)
Theorem student_login_rejects t_expire t_iat (credentials : App.StudentLogin)
    (conn : Connection) :
  stored_student conn (App.login_email credentials) = None
  ∨ (∃ s, stored_student conn (App.login_email credentials) = Some s
          ∧ ctx_verify (App.login_password credentials) (s_password_hash s)
            ≠ Ok true) →
  App.student_login config t_expire t_iat credentials conn
  = (Raise (HTTPException 401 "Invalid credentials"), conn).
Proof.
  intros Hbad. rewrite student_login_cases.
  destruct Hbad as [-> | (s & -> & Hno)]; [reflexivity |].
  destruct (App.check_password _ _) eqn:Hc; [| reflexivity].
  apply check_password_true in Hc. contradiction.
Qed.

(** X14.  [POST /api/students/login] with the password that verifies
    against the hash of the student found by email answers 200 with the
    student's id, email and name and a token; the store is not touched.
    Until its expiry the token verifies to a payload whose subject is the
    decimal id, whose type is ["student"] and whose email is the
    student's. *)
Theorem student_login_accepts getenv m t_expire t_iat
    (credentials : App.StudentLogin) (conn : Connection) s :
  Config_init getenv m = Ok config →
  stored_student conn (App.login_email credentials) = Some s →
  ctx_verify (App.login_password credentials) (s_password_hash s) = Ok true →
  ∃ token,
    App.student_login config t_expire t_iat credentials conn
    = (Ok (App.student_session "Login successful" s token), conn)
    ∧ ∀ now, now ≤ t_expire + 86400 →
        ∃ payload,
          AuthManager.verify_token config now token = Some payload
          ∧ payload !! "sub" = Some (JStr (Py.str (s_id s)))
          ∧ payload !! "type" = Some (JStr "student")
          ∧ payload !! "email" = Some (JStr (s_email s)).
Proof.
  intros Hinit Hfound Hpw.
  destruct (issued_payload getenv m t_expire t_iat (App.student_data s)
              (Py.str (s_id s)) "student" Hinit)
    as (token & Hcreate & Hverify); try reflexivity.
  exists token. split.
  - rewrite student_login_cases, Hfound.
    rewrite (proj2 (check_password_true _ _) Hpw), Hcreate. reflexivity.
  - intros now Hnow. eexists. split; [apply Hverify; exact Hnow |].
    split; [| split].
    + rewrite to_encode_other by discriminate. reflexivity.
    + apply to_encode_type.
    + rewrite to_encode_other by discriminate. reflexivity.
Qed.

(** X15.  [POST /api/admin/login]: 401 "Invalid credentials" when no
    admin has the username or the password does not verify against the
    stored hash; otherwise 200 with the admin's id and username and a
    token which, until its expiry, verifies to a payload of type
    ["admin"] whose subject is the decimal id.  The store is never
    touched. *)
Theorem admin_login_outcome t_expire t_iat (credentials : App.AdminLogin)
    (conn : Connection) :
  (stored_admin conn (App.login_username credentials) = None →
   App.admin_login config t_expire t_iat credentials conn
   = (Raise (HTTPException 401 "Invalid credentials"), conn))
  ∧ (∀ a, stored_admin conn (App.login_username credentials) = Some a →
          ctx_verify (App.admin_password credentials) (a_password_hash a)
          ≠ Ok true →
          App.admin_login config t_expire t_iat credentials conn
          = (Raise (HTTPException 401 "Invalid credentials"), conn))
  ∧ (∀ a getenv m,
       stored_admin conn (App.login_username credentials) = Some a →
       ctx_verify (App.admin_password credentials) (a_password_hash a)
       = Ok true →
       Config_init getenv m = Ok config →
       ∃ token,
         App.admin_login config t_expire t_iat credentials conn
         = (Ok (App.admin_session a token), conn)
         ∧ ∀ now, now ≤ t_expire + 86400 →
             ∃ payload,
               AuthManager.verify_token config now token = Some payload
               ∧ payload !! "sub" = Some (JStr (Py.str (a_id a)))
               ∧ payload !! "type" = Some (JStr "admin")).
Proof.
  split; [| split].
  - intros Hnone. rewrite admin_login_cases, Hnone. reflexivity.
  - intros a Hfound Hno. rewrite admin_login_cases, Hfound.
    destruct (App.check_password _ _) eqn:Hc; [| reflexivity].
    apply check_password_true in Hc. contradiction.
  - intros a getenv m Hfound Hpw Hinit.
    destruct (issued_payload getenv m t_expire t_iat (App.admin_data a)
                (Py.str (a_id a)) "admin" Hinit)
      as (token & Hcreate & Hverify); try reflexivity.
    exists token. split.
    + rewrite admin_login_cases, Hfound.
      rewrite (proj2 (check_password_true _ _) Hpw), Hcreate. reflexivity.
    + intros now Hnow. eexists. split; [apply Hverify; exact Hnow |].
      split.
      * rewrite to_encode_other by discriminate. reflexivity.
      * apply to_encode_type.
Qed.



End Sessions.

(** ** What verification and the gate let through *)

Section Accepting.
Context `{!JWS}.
Variable config : Config.

(** X18.  Whatever the token, a payload returned by [verify_token] is the
    payload the signature check produced under the configured key and
    algorithm, and it has passed the claim checks at the time of the call:
    a numeric [exp] is not in the past, a numeric [nbf] is not in the
    future, a subject is a string, and there is no audience. *)
Theorem verify_token_only_valid now token (payload : claims) :
  AuthManager.verify_token config now token = Some payload →
  jws_verify token (jwt_secret config) [jwt_algorithm config] = Ok payload
  ∧ (∀ e, payload !! "exp" = Some (JNum e) → now ≤ e)
  ∧ (∀ n, payload !! "nbf" = Some (JNum n) → n ≤ now)
  ∧ (∀ v, payload !! "sub" = Some v → ∃ s, v = JStr s)
  ∧ payload !! "aud" = None.
Proof.
  unfold AuthManager.verify_token, Jose.decode.
  destruct (jws_verify token (jwt_secret config) [jwt_algorithm config])
    as [c | e]; [| discriminate].
  destruct (Jose.validate_claims now c) eqn:Hv; [| discriminate].
  intros [= <-]. split; [reflexivity |].
  unfold Jose.validate_claims in Hv.
  repeat (apply andb_true_iff in Hv as [Hv ?]).
  split; [| split; [| split]].
  - intros e He. unfold Jose.validate_exp in *. rewrite He in *. cbn in *.
    match goal with
    | H : negb (e <? now) = true |- _ =>
        apply negb_true_iff, Z.ltb_ge in H; exact H
    end.
  - intros n Hn. unfold Jose.validate_nbf in *. rewrite Hn in *. cbn in *.
    match goal with
    | H : negb (now <? n) = true |- _ =>
        apply negb_true_iff, Z.ltb_ge in H; exact H
    end.
  - intros v Hsub. unfold Jose.validate_str in *. rewrite Hsub in *.
    destruct v; try discriminate. eexists; reflexivity.
  - unfold Jose.validate_aud in *.
    match goal with
    | H : bool_decide (c !! "aud" = None) = true |- _ =>
        apply bool_decide_eq_true in H; exact H
    end.
Qed.

(** X19.  [get_current_user] returns a payload exactly when the header is
    present, splits into two whitespace-separated parts of which the first
    is "bearer" in any letter case, the second part verifies to that
    payload, and the payload is not the empty dict.  In every other case
    the outcome is an [HTTPException] with status 401. *)
Theorem gate_accepts_exactly now authorization (payload : claims) :
  (App.get_current_user config now authorization = Ok payload ↔
   ∃ a, authorization = Some a ∧ App.bearer_format a
        ∧ AuthManager.verify_token config now (App.bearer_token a)
          = Some payload
        ∧ payload ≠ ∅)
  ∧ ((∀ p, App.get_current_user config now authorization ≠ Ok p) →
     ∃ detail, App.get_current_user config now authorization
               = Raise (HTTPException 401 detail)).
Proof.
  split; [split |].
  - apply get_current_user_accepts.
  - intros (a & -> & [Hlen Hscheme] & Hverify & Hne).
    unfold App.get_current_user.
    assert (Py.is_empty a = false) as ->.
    { destruct a; [discriminate Hlen | reflexivity]. }
    rewrite bool_decide_eq_false_2 by (intros Hx; apply Hx; exact Hlen).
    rewrite Hscheme. cbn. fold (App.bearer_token a). rewrite Hverify. cbn.
    rewrite bool_decide_eq_false_2 by exact Hne. reflexivity.
  - intros Hnot. unfold App.get_current_user in *.
    destruct authorization as [a |]; [| eexists; reflexivity].
    destruct (Py.is_empty a); [eexists; reflexivity |].
    destruct (_ || _); [eexists; reflexivity |].
    destruct (AuthManager.verify_token _ _ _) as [p |];
      [| eexists; reflexivity].
    cbn in *. destruct (bool_decide (p = ∅)); cbn in *;
      [eexists; reflexivity |].
    exfalso. apply (Hnot p). reflexivity.
Qed.

End Accepting.

(** ** Configuration and input validation *)

Section Validation.

(** X20.  [Config(mode)] raises exactly in production mode with
    [POSTGRES_URL] unset or empty.  Whenever it returns, the algorithm is
    HS256, the lifetime 24 hours, and the signing secret is [JWT_SECRET]
    from the environment or else the development default; outside
    production the database URL falls back to the local test database. *)
Theorem config_outcome (getenv : string → option string) (m : string) :
  ((∃ e, Config_init getenv m = Raise e) ↔
   m = "prod" ∧ (getenv "POSTGRES_URL" = None
                 ∨ getenv "POSTGRES_URL" = Some ""))
  ∧ (∀ config, Config_init getenv m = Ok config →
       jwt_algorithm config = "HS256"
       ∧ jwt_expiration_hours config = 24
       ∧ jwt_secret config
         = default "dev-secret-key-change-in-production" (getenv "JWT_SECRET")
       ∧ (m ≠ "prod" →
          database_url config
          = default "postgresql://localhost/course_management_test"
              (getenv "TEST_DATABASE_URL"))
       ∧ (m = "prod" → getenv "POSTGRES_URL" = Some (database_url config))).
Proof.
  unfold Config_init. split.
  - destruct (decide (m = "prod")) as [-> | Hne].
    + cbn. destruct (getenv "POSTGRES_URL") as [[| c u] |]; cbn.
      * split; [intros _; split; [reflexivity | right; reflexivity]
               | intros _; eexists; reflexivity].
      * split; [intros [e He]; discriminate He
               | intros [_ [Hx | Hx]]; discriminate Hx].
      * split; [intros _; split; [reflexivity | left; reflexivity]
               | intros _; eexists; reflexivity].
    + rewrite bool_decide_eq_false_2 by exact Hne. split.
      * intros [e He]. discriminate He.
      * intros [Hm _]. contradiction.
  - intros config.
    destruct (decide (m = "prod")) as [-> | Hne].
    + cbn. destruct (getenv "POSTGRES_URL") as [[| c u] |]; cbn;
        try discriminate.
      intros [= <-]. cbn. repeat split; try reflexivity. contradiction.
    + rewrite bool_decide_eq_false_2 by exact Hne.
      intros [= <-]. cbn. repeat split; try reflexivity. contradiction.
Qed.

Lemma is_empty_length s : Py.is_empty s = true ↔ String.length s = 0%nat.
Proof. destruct s; cbn; split; congruence. Qed.

(** X21.  [validate_password] accepts exactly the passwords of six or
    more characters, with an empty message; the empty password is refused
    with "Password is required" and any other short one with "Password
    must be at least 6 characters long". *)
Theorem validate_password_length (password : string) :
  (AuthManager.validate_password password = (true, "") ↔
   (6 ≤ String.length password)%nat)
  ∧ (password = "" →
     AuthManager.validate_password password
     = (false, "Password is required"))
  ∧ ((1 ≤ String.length password < 6)%nat →
     AuthManager.validate_password password
     = (false, "Password must be at least 6 characters long")).
Proof.
  unfold AuthManager.validate_password, Py.len.
  split; [| split].
  - destruct password as [| c p]; cbn [Py.is_empty String.length].
    + split; [discriminate | lia].
    + destruct (Z.of_nat (S (String.length p)) <? 6) eqn:Hlt.
      * apply Z.ltb_lt in Hlt. split; [discriminate | lia].
      * apply Z.ltb_ge in Hlt. split; [lia | reflexivity].
  - intros ->. reflexivity.
  - intros Hlen. destruct password as [| c p]; cbn in Hlen; [lia |].
    cbn [Py.is_empty String.length].
    replace (Z.of_nat (S (String.length p)) <? 6) with true
      by (symmetry; apply Z.ltb_lt; lia).
    reflexivity.
Qed.

Lemma contains_split c s :
  Py.contains c s = true ↔ ∃ a b, s = a +:+ String c b.
Proof.
  induction s as [| d s IH]; cbn.
  - split; [discriminate |]. intros (a & b & Hab).
    destruct a; discriminate Hab.
  - destruct (Ascii.eqb c d) eqn:Hcd.
    + apply Ascii.eqb_eq in Hcd as <-. split; [| reflexivity].
      intros _. exists "", s. reflexivity.
    + rewrite IH. split.
      * intros (a & b & ->). exists (String d a), b. reflexivity.
      * intros (a & b & Hab). destruct a as [| d' a].
        -- injection Hab as <- _. rewrite Ascii.eqb_refl in Hcd.
           discriminate Hcd.
        -- injection Hab as _ ->. exists a, b. reflexivity.
Qed.

(** X22.  [validate_email] accepts a string exactly when it contains an
    ["@"] and a ["."] somewhere: their order and what stands around them
    play no part, so ["@example.com"] and [".@"] pass. *)
Theorem validate_email_accepts (email : string) :
  AuthManager.validate_email email = true ↔
  (∃ a b, email = a +:+ String "@" b) ∧ (∃ a b, email = a +:+ String "." b).
Proof.
  unfold AuthManager.validate_email.
  rewrite <- !contains_split.
  destruct email as [| c e]; [cbn; split; [discriminate | intros [H _]; discriminate H] |].
  cbn [Py.is_empty orb].
  destruct (Py.contains "@" (String c e)), (Py.contains "." (String c e));
    cbn; split; try discriminate; try tauto;
    intros [? ?]; discriminate.
Qed.

End Validation.

Example validate_email_no_local_part :
  AuthManager.validate_email "@example.com" = true
  ∧ AuthManager.validate_email "test@" = false.
Proof. split; reflexivity. Qed.

(** ** Listings and unreadable subjects *)

Section Listings.
Import Db.





End Listings.

(** ** The further theorems at concrete inputs *)

Section MoreWitnesses.
Import Db Demo.

Lemma demo_unique :
  unique_emails (committed with_enrollment)
  ∧ unique_emails (working with_enrollment)
  ∧ unique_pairs (committed with_enrollment)
  ∧ unique_pairs (working with_enrollment).
Proof.
  split; [constructor |].
  split; [vm_compute; constructor; [intros [] | constructor] |].
  split; intros sid cid; unfold pair_count.
  - change (enrollments (committed with_enrollment)) with (@nil enrollment).
    cbn. lia.
  - change (enrollments (working with_enrollment))
      with [{| e_id := 1; e_student_id := 1; e_course_id := 1 |}].
    cbn [List.filter]. destruct (is_pair sid cid _); cbn; lia.
Defined.

Lemma unique_constraints_kept_witness :
  let conn' := snd (execute_query (InsertEnrollment 1 1) true with_enrollment)
  in
  unique_emails (committed conn') ∧ unique_emails (working conn')
  ∧ unique_pairs (committed conn') ∧ unique_pairs (working conn').
Proof.
  exact (unique_constraints_kept (InsertEnrollment 1 1) true with_enrollment
           (proj1 demo_unique) (proj1 (proj2 demo_unique))
           (proj1 (proj2 (proj2 demo_unique)))
           (proj2 (proj2 (proj2 demo_unique)))).
Defined.

Lemma demo_keys :
  keys_ok (seqs with_enrollment) (committed with_enrollment)
  ∧ keys_ok (seqs with_enrollment) (working with_enrollment).
Proof.
  split; unfold keys_ok; repeat split;
    first
      [ solve [vm_compute; constructor]
      | solve [vm_compute; constructor; [intros [] | constructor]]
      | solve [intros x Hx; vm_compute in Hx; destruct Hx]
      | solve [intros x Hx; vm_compute in Hx; destruct Hx as [<- | []];
               vm_compute; reflexivity] ].
Defined.

Lemma primary_keys_kept_witness :
  let conn' :=
    snd (execute_query (InsertStudent "a@x.com" "h2" None) true
           with_enrollment) in
  keys_ok (seqs conn') (committed conn')
  ∧ keys_ok (seqs conn') (working conn')
  ∧ seq_le (seqs with_enrollment) (seqs conn').
Proof.
  exact (primary_keys_kept (InsertStudent "a@x.com" "h2" None) true
           with_enrollment (proj1 demo_keys) (proj2 demo_keys)).
Defined.

Lemma non_admin_is_403_witness :
  App.handler (App.POST_courses course_t) student1 seeded
  = (Raise (HTTPException 403 "Admin access required"), seeded).
Proof.
  apply (non_admin_is_403 (App.POST_courses course_t) student1 seeded).
  - intros sid Heq. discriminate Heq.
  - unfold student1. rewrite to_encode_type. discriminate.
Defined.

Lemma missing_course_is_404_witness :
  App.update_course 5 update_t admin1 seeded
  = (Raise (HTTPException 404 "Course not found"), seeded)
  ∧ App.delete_course 5 admin1 seeded
    = (Raise (HTTPException 404 "Course not found"), seeded)
  ∧ App.enroll_student
      {| App.enrollment_student_id := 1; App.enrollment_course_id := 5 |}
      admin1 seeded
    = (Raise (HTTPException 404 "Course not found"), seeded).
Proof.
  apply (missing_course_is_404 admin1 seeded 5 1 update_t).
  - apply to_encode_type.
  - reflexivity.
Defined.


Lemma unenroll_always_succeeds_witness :
  ∃ conn',
    App.unenroll_student 1 1 admin1 with_enrollment
    = (Ok (App.JObject
             [("message",
               App.JAtom (JStr "Student unenrolled successfully"))]),
       conn')
    ∧ pair_count (working conn') 1 1 = 0%nat
    ∧ (∀ e, In e (enrollments (working conn')) ↔
            In e (enrollments (working with_enrollment))
            ∧ is_pair 1 1 e = false)
    ∧ students (working conn') = students (working with_enrollment)
    ∧ courses (working conn') = courses (working with_enrollment)
    ∧ committed conn' = working conn'.
Proof.
  apply (unenroll_always_succeeds admin1 with_enrollment 1 1).
  apply to_encode_type.
Defined.

Lemma delete_existing_course_witness :
  ∃ conn',
    App.delete_course 1 admin1 with_enrollment
    = (Ok (App.JObject
             [("message", App.JAtom (JStr "Course deleted successfully"))]),
       conn')
    ∧ has_course (working conn') 1 = false
    ∧ (∀ c, In c (courses (working conn')) ↔
            In c (courses (working with_enrollment)) ∧ c_id c ≠ 1)
    ∧ pair_free conn' 1
    ∧ committed conn' = working conn'.
Proof.
  apply (delete_existing_course admin1 with_enrollment 1).
  - apply to_encode_type.
  - reflexivity.
Defined.



Lemma student_login_rejects_witness :
  @App.student_login sim_jws sim_passlib test_config 0 0
    (login_a "nobody-knows") signed_up
  = (Raise (HTTPException 401 "Invalid credentials"), signed_up)
  ∧ @App.student_login sim_jws sim_passlib test_config 0 0
      {| App.login_email := "b@x.com"; App.login_password := "secret1" |}
      signed_up
    = (Raise (HTTPException 401 "Invalid credentials"), signed_up).
Proof.
  split.
  - apply (@student_login_rejects sim_jws sim_passlib test_config 0 0
             (login_a "nobody-knows") signed_up).
    right. eexists. split; [reflexivity |]. vm_compute. discriminate.
  - apply (@student_login_rejects sim_jws sim_passlib test_config 0 0
             {| App.login_email := "b@x.com";
                App.login_password := "secret1" |} signed_up).
    left. reflexivity.
Defined.

Lemma student_login_accepts_witness :
  ∃ token,
    @App.student_login sim_jws sim_passlib test_config 0 0
      (login_a "secret1") signed_up
    = (Ok (App.student_session "Login successful"
             (next_student seeded "a@x.com" hash_a None) token), signed_up)
    ∧ ∀ now, now ≤ 0 + 86400 →
        ∃ payload,
          @AuthManager.verify_token sim_jws test_config now token
          = Some payload
          ∧ payload !! "sub"
            = Some (JStr (Py.str (s_id (next_student seeded "a@x.com"
                                          hash_a None))))
          ∧ payload !! "type" = Some (JStr "student")
          ∧ payload !! "email"
            = Some (JStr (s_email (next_student seeded "a@x.com" hash_a
                                     None))).
Proof.
  apply (@student_login_accepts sim_jws sim_passlib test_config (λ _, None)
           "test" 0 0 (login_a "secret1") signed_up
           (next_student seeded "a@x.com" hash_a None)).
  - reflexivity.
  - vm_compute. reflexivity.
  - vm_compute. reflexivity.
Defined.



Lemma verify_token_only_valid_witness :
  let payload := AuthManager.to_encode test_config 0 0 guest "guest" in
  @jws_verify sim_jws guest_token (jwt_secret test_config)
    [jwt_algorithm test_config] = Ok payload
  ∧ (∀ e, payload !! "exp" = Some (JNum e) → 50 ≤ e)
  ∧ (∀ n, payload !! "nbf" = Some (JNum n) → n ≤ 50)
  ∧ (∀ v, payload !! "sub" = Some v → ∃ s, v = JStr s)
  ∧ payload !! "aud" = None.
Proof.
  apply (@verify_token_only_valid sim_jws test_config 50 guest_token
           (AuthManager.to_encode test_config 0 0 guest "guest")).
  vm_compute. reflexivity.
Defined.



End MoreWitnesses.
